(* Verification of the RGTP Python binding (src/bindings/python/rgtp.py).

   The binding is a thin ctypes layer over the native librgtp library.  The
   model below follows the Python code: Python exceptions are an explicit
   error result, the process environment (whether the native library loaded,
   the interpreter's integer-to-string limit, the resolver, the native entry
   points, the file system) is a record of functions, and mutable buffers are
   passed and returned explicitly.  Python floats are IEEE 754 doubles,
   modelled with their rounding. *)

From Stdlib Require Import ZArith QArith String Ascii Bool Lia List.
Import ListNotations.
Open Scope Z_scope.

(* ------------------------------------------------------------------------- *)
(** * Python outcomes *)

(** The exceptions the binding can raise.  [RGTPError] is the single
    exception class defined by rgtp.py; the others are raised by the Python
    runtime or standard library on the paths modelled here. *)
Inductive exc : Type :=
| RGTPError (msg : string)
| StructError          (* struct.pack('>H', port) with port out of range *)
| ValueError           (* ctypes array length, int-to-str limit, NUL in a host *)
| OverflowError        (* int too large for a float or for a C ssize_t *)
| ZeroDivisionError
| OSError.             (* open(filename) or os.path.getsize failing *)

(** Either a returned value or a raised exception: never both. *)
Inductive result (A : Type) : Type :=
| Ok (a : A)
| Raise (e : exc).
Arguments Ok {A} a.
Arguments Raise {A} e.

Definition bind_result {A B : Type} (r : result A) (k : A -> result B) : result B :=
  match r with
  | Ok a => k a
  | Raise e => Raise e
  end.

Notation "x <- r ;; k" := (bind_result r (fun x => k))
  (at level 61, r at next level, right associativity).

(** The exception class of a raised exception ([type(e)] in Python). *)
Inductive exc_class : Type :=
| C_RGTPError | C_StructError | C_ValueError | C_OverflowError
| C_ZeroDivisionError | C_OSError.

Definition class_of (e : exc) : exc_class :=
  match e with
  | RGTPError _ => C_RGTPError
  | StructError => C_StructError
  | ValueError => C_ValueError
  | OverflowError => C_OverflowError
  | ZeroDivisionError => C_ZeroDivisionError
  | OSError => C_OSError
  end.

(* ------------------------------------------------------------------------- *)
(** * Python floats (IEEE 754 binary64, round half to even) *)

(** A double: [(-1)^s * m * 2^e] with [0 <= m < 2^53] and [-1074 <= e]
    (a normal number has [2^52 <= m]), an infinity, or a NaN. *)
Inductive float64 : Type :=
| Finite (s : bool) (m e : Z)
| Infinity (s : bool)
| NaN.

(** The least magnitude that rounds to infinity: [2^1024 - 2^970], halfway
    between the largest double [(2^53 - 1) * 2^971] and [2^1024]. *)
Definition overflow_threshold : Z := 2 ^ 1024 - 2 ^ 970.

(** [n / d >= 2^k], for [n, d > 0]. *)
Definition ratio_ge_pow2 (n d k : Z) : bool :=
  d * 2 ^ Z.max 0 k <=? n * 2 ^ Z.max 0 (- k).

(** [floor(log2(n / d))], for [n, d > 0]: it is [log2 n - log2 d] or one
    less. *)
Definition flog2 (n d : Z) : Z :=
  let k := Z.log2 n - Z.log2 d in
  if ratio_ge_pow2 n d k then k else k - 1.

(** [n / d] ([n, d > 0]) rounded to a significand [m] and exponent [e]:
    53 significant bits, fewer below [2^-1022] where [e] stays [-1074]; the
    ulp is [2^e] and ties go to the even significand. *)
Definition round_mag (n d : Z) : Z * Z :=
  let e := Z.max (flog2 n d - 52) (-1074) in
  let num := n * 2 ^ Z.max 0 (- e) in
  let den := d * 2 ^ Z.max 0 e in
  let q := num / den in
  let r := num mod den in
  let m := if (den <? 2 * r) || ((2 * r =? den) && Z.odd q) then q + 1 else q in
  if m =? 2 ^ 53 then (2 ^ 52, e + 1) else (m, e).

(** The double nearest to [(-1)^s * n / d] ([n >= 0], [d > 0]). *)
Definition round_to_float (s : bool) (n d : Z) : float64 :=
  if n =? 0 then Finite s 0 (-1074)
  else if overflow_threshold * d <=? n then Infinity s
  else let '(m, e) := round_mag n d in Finite s m e.

(** [a / b] on Python ints: the exact quotient correctly rounded.  Division
    by zero raises ZeroDivisionError, and a quotient that rounds beyond the
    largest double raises OverflowError ("integer division result too large
    for a float"). *)
Definition int_true_div (a b : Z) : result float64 :=
  if b =? 0 then Raise ZeroDivisionError
  else if overflow_threshold * Z.abs b <=? Z.abs a then Raise OverflowError
  else Ok (round_to_float (xorb (a <? 0) (b <? 0)) (Z.abs a) (Z.abs b)).

(** [x * y] on Python floats: the exact product rounded, infinity on
    overflow (no exception), NaN for [inf * 0]. *)
Definition float_mul (x y : float64) : float64 :=
  match x, y with
  | Finite s1 m1 e1, Finite s2 m2 e2 =>
      let e := e1 + e2 in
      round_to_float (xorb s1 s2) (m1 * m2 * 2 ^ Z.max 0 e) (2 ^ Z.max 0 (- e))
  | NaN, _ | _, NaN => NaN
  | Infinity s1, Finite s2 m2 _ => if m2 =? 0 then NaN else Infinity (xorb s1 s2)
  | Finite s1 m1 _, Infinity s2 => if m1 =? 0 then NaN else Infinity (xorb s1 s2)
  | Infinity s1, Infinity s2 => Infinity (xorb s1 s2)
  end.

(** The literal [100.0]: [100 * 2^46 * 2^-46]. *)
Definition float_100 : float64 := Finite false (100 * 2 ^ 46) (-46).

(** The real number a finite double denotes. *)
Definition float_value (x : float64) : option Q :=
  match x with
  | Finite s m e =>
      let v := if 0 <=? e then inject_Z (m * 2 ^ e) else (m # Z.to_pos (2 ^ (- e))) in
      Some (if s then Qopp v else v)
  | _ => None
  end.

(* ------------------------------------------------------------------------- *)
(** * Stats (rgtp.py lines 173-193) *)

Module Stats.

(** The [Stats] dataclass.  Integer fields are Python ints; the float
    fields only ever hold the literals [0.0] and [100.0] in this code, and are
    kept as the rationals they denote. *)
Record t : Type := mk {
  bytes_transferred : Z;
  total_bytes : Z;
  throughput_mbps : Q;
  avg_throughput_mbps : Q;
  chunks_transferred : Z;
  total_chunks : Z;
  retransmissions : Z;
  completion_percent : Q;
  elapsed_ms : Z;
  estimated_remaining_ms : Z
}.

(** [Stats()]: every field takes its default. *)
Definition default : t :=
  mk 0 0 0 0 0 0 0 0 0 0.

(** The [efficiency_percent] property:
    {v
    if self.chunks_transferred == 0:
        return 100.0
    total_attempts = self.chunks_transferred + self.retransmissions
    return (self.chunks_transferred / total_attempts) * 100.0
    v}
    [/] is the true division of two ints, [*] a float product. *)
Definition efficiency_percent (s : t) : result float64 :=
  if chunks_transferred s =? 0 then Ok float_100
  else
    let total_attempts := chunks_transferred s + retransmissions s in
    x <- int_true_div (chunks_transferred s) total_attempts ;;
    Ok (float_mul x float_100).

(** The spec's formula, written from its words:
    [chunks_transferred == 0 ? 100 :
     chunks_transferred / (chunks_transferred + retransmissions) * 100],
    a division being undefined on a zero divisor. *)
Definition spec_efficiency_percent (s : t) : option Q :=
  if chunks_transferred s =? 0 then Some 100%Q
  else
    let d := chunks_transferred s + retransmissions s in
    if d =? 0 then None
    else Some ((inject_Z (chunks_transferred s) / inject_Z d) * 100)%Q.

End Stats.

Definition result_to_option {A : Type} (r : result A) : option A :=
  match r with Ok a => Some a | Raise _ => None end.

(* ------------------------------------------------------------------------- *)
(** * Python helpers *)

(** Python's normalisation of a slice bound [k] of [a[:k]] on a sequence of
    length [n]: a negative bound counts from the end, and the result is
    clamped to [0, n]. *)
Definition slice_bound (n : nat) (k : Z) : nat :=
  if k <? 0 then Z.to_nat (Z.max 0 (Z.of_nat n + k))
  else Nat.min (Z.to_nat k) n.

(** [a[:k]]. *)
Definition py_prefix {A : Type} (a : list A) (k : Z) : list A :=
  firstn (slice_bound (length a) k) a.

(** [a[:k] = x] on a bytearray: the prefix is replaced by [x], whatever its
    length, and the rest is kept. *)
Definition py_prefix_assign {A : Type} (a : list A) (k : Z) (x : list A) : list A :=
  x ++ skipn (slice_bound (length a) k) a.

(** Decimal rendering of an integer, as an f-string does it; [fuel] bounds
    the number of digits. *)
Fixpoint digits_of (fuel : nat) (n : Z) (acc : string) : string :=
  match fuel with
  | O => acc
  | S f =>
      let d := String (ascii_of_nat (48 + Z.to_nat (n mod 10))) EmptyString in
      if n <? 10 then (d ++ acc)%string
      else digits_of f (n / 10) (d ++ acc)%string
  end.

(** [n] has at most [log2 n + 1] decimal digits. *)
Definition z_to_string (n : Z) : string :=
  if n <? 0 then ("-" ++ digits_of (S (Z.to_nat (Z.log2 (- n)))) (- n) "")%string
  else digits_of (S (Z.to_nat (Z.log2 n))) n "".

(** Whether [str(n)] succeeds under [sys.get_int_max_str_digits() = limit]:
    since Python 3.11 an int of more than [limit] decimal digits, that is
    [|n| >= 10^limit], cannot be converted; [limit = 0] (and older Pythons)
    sets no limit, and the interpreter refuses a positive limit below 640. *)
Definition prints_int (limit n : Z) : bool :=
  negb ((0 <? limit) && (10 ^ Z.max 640 limit <=? Z.abs n)).

(** [str(n)], as an f-string formats an int. *)
Definition py_str_int (limit n : Z) : result string :=
  if prints_int limit n then Ok (z_to_string n) else Raise ValueError.

(** A bytes literal as the list of its byte values. *)
Definition bytes_of_string (s : string) : list Z :=
  map (fun a => Z.of_nat (nat_of_ascii a)) (list_ascii_of_string s).

(** Whether a string holds a NUL character: [socket.inet_aton] parses its
    argument with the "s" converter, which rejects it with ValueError. *)
Definition has_nul (s : string) : bool :=
  existsb (fun a => Ascii.eqb a Ascii.zero) (list_ascii_of_string s).

(* ------------------------------------------------------------------------- *)
(** * The process environment *)

(** What the binding depends on outside Python: whether [_load_library]
    succeeded ([_lib_loaded]), the interpreter's
    [sys.get_int_max_str_digits()], the resolver used by the binding
    ([socket.inet_aton] on a NUL-free string, [None] for its socket.error;
    [socket.gethostbyname], [None] for any exception), the native entry
    points, whether [open(filename, ...)] succeeds and what
    [os.path.getsize(filename)] returns ([None] for its OSError).

    [rgtp_expose_data sockfd data addr] returns the status and the surface
    pointer it stores; [rgtp_pull_data sockfd addr size] returns the status,
    the bytes it writes at the start of the buffer and the value it leaves in
    [*size].  Strings are modelled as sequences of characters below U+0100,
    which always encode. *)
Record env : Type := mk_env {
  lib_loaded : bool;
  max_str_digits : Z;
  inet_aton : string -> option (Z * Z * Z * Z);
  gethostbyname : string -> option string;
  rgtp_socket : Z;
  rgtp_bind : Z -> Z -> Z;
  rgtp_expose_data : Z -> list Z -> list Z -> Z * Z;
  rgtp_pull_data : Z -> list Z -> Z -> Z * list Z * Z;
  can_open : string -> bool;
  getsize : string -> option Z
}.

(** Whether [str(n)] succeeds in this interpreter. *)
Definition prints (E : env) (n : Z) : bool := prints_int (max_str_digits E) n.

(* ------------------------------------------------------------------------- *)
(** * Module-level primitives (rgtp.py lines 199-362) *)

(** [socket()]. *)
Definition socket (E : env) : result Z :=
  if negb (lib_loaded E) then Ok 1
  else
    let sockfd := rgtp_socket E in
    if sockfd <? 0 then Raise (RGTPError "Failed to create RGTP socket")
    else Ok sockfd.

(** [bind(sockfd, port)].  The mock path prints the port; ctypes converts
    [port] to [c_uint16] by truncation, and the error message formats the
    port again. *)
Definition bind (E : env) (sockfd port : Z) : result unit :=
  if negb (lib_loaded E) then
    _ <- py_str_int (max_str_digits E) port ;;
    Ok tt
  else
    if rgtp_bind E sockfd (port mod 65536) <? 0
    then
      p <- py_str_int (max_str_digits E) port ;;
      Raise (RGTPError ("Failed to bind RGTP socket to port " ++ p))
    else Ok tt.

(** [struct.pack('>H', port)]: two bytes, most significant first. *)
Definition pack_port (port : Z) : result (Z * Z) :=
  if (0 <=? port) && (port <=? 65535) then Ok (port / 256, port mod 256)
  else Raise StructError.

(** The [sin_addr] block: [inet_aton(ip)] (ValueError, not socket.error, for
    a NUL in [ip], which escapes the handler), and on its [socket.error] the
    [gethostbyname] fallback under a bare [except]. *)
Definition resolve (E : env) (ip : string) : result (Z * Z * Z * Z) :=
  if has_nul ip then Raise ValueError
  else
    match inet_aton E ip with
    | Some b => Ok b
    | None =>
        match gethostbyname E ip with
        | Some ip_addr =>
            if has_nul ip_addr then Raise (RGTPError ("Failed to resolve hostname: " ++ ip))
            else
              match inet_aton E ip_addr with
              | Some b => Ok b
              | None => Raise (RGTPError ("Failed to resolve hostname: " ++ ip))
              end
        | None => Raise (RGTPError ("Failed to resolve hostname: " ++ ip))
        end
    end.

(** The 16-byte [sockaddr_in] built by [expose_data] and [pull_data]. *)
Definition sockaddr (E : env) (dest : string * Z) : result (list Z) :=
  let '(ip, port) := dest in
  pb <- pack_port port ;;
  b <- resolve E ip ;;
  let '(p0, p1) := pb in
  let '(b0, b1, b2, b3) := b in
  Ok [2; 0; p0; p1; b0; b1; b2; b3; 0; 0; 0; 0; 0; 0; 0; 0].

(** [expose_data(sockfd, data, dest)]: [None] in the mock path, whose
    warning prints [len(data)] (below [2^63], always printable) and [dest]
    (its port an int), the surface pointer otherwise. *)
Definition expose_data (E : env) (sockfd : Z) (data : list Z) (dest : string * Z)
  : result (option Z) :=
  if negb (lib_loaded E) then
    _ <- py_str_int (max_str_digits E) (snd dest) ;;
    Ok None
  else
    addr <- sockaddr E dest ;;
    let '(status, surface_ptr) := rgtp_expose_data E sockfd data addr in
    if status <? 0 then Raise (RGTPError "Failed to expose data")
    else Ok (Some surface_ptr).

(** The mock payload of [pull_data]. *)
Definition mock_data : list Z :=
  bytes_of_string "<html><body><h1>Mock RGTP Data</h1></body></html>".

(** [pull_data(sockfd, source, buffer, size)].  The caller's bytearray is
    shared with the callee, so the model returns it next to the outcome: the
    native call writes into it even when it then reports failure.
    [ctypes.c_uint8 * size] raises OverflowError for a [size] outside the C
    [ssize_t] range [[-2^63, 2^63)] and ValueError for a negative one;
    [.from_buffer(buffer)] raises ValueError for a buffer shorter than
    [size] (a bytearray holds fewer than [2^63] bytes, so a [size >= 2^63]
    is always longer than the buffer); [size_ptr.value] reads a [size_t]. *)
Definition pull_data (E : env) (sockfd : Z) (source : string * Z)
  (buffer : list Z) (size : Z) : list Z * result Z :=
  if negb (lib_loaded E) then
    if prints E (snd source) then
      let copy_size := Z.min (Z.of_nat (length mock_data)) size in
      (py_prefix_assign buffer copy_size (py_prefix mock_data copy_size), Ok copy_size)
    else (buffer, Raise ValueError)
  else
    match sockaddr E source with
    | Raise e => (buffer, Raise e)
    | Ok addr =>
        if size <? 0 then
          (buffer, Raise (if size <? - 2 ^ 63 then OverflowError else ValueError))
        else if Z.of_nat (length buffer) <? size then
          (buffer, Raise (if 2 ^ 63 <=? size then OverflowError else ValueError))
        else
          let '(status, written, n) := rgtp_pull_data E sockfd addr size in
          let w := firstn (Z.to_nat size) written in
          let buffer' := w ++ skipn (length w) buffer in
          if status <? 0 then (buffer', Raise (RGTPError "Failed to pull data"))
          else (buffer', Ok (n mod 2 ^ 64))
    end.

(* ------------------------------------------------------------------------- *)
(** * Session and Client (rgtp.py lines 394-456) *)

Module Session.

Record t : Type := mk {
  sockfd : Z;
  surface : option (option Z);
  port : Z
}.

(** [Session(port)]. *)
Definition init (E : env) (port : Z) : result t :=
  fd <- socket E ;;
  _ <- bind E fd port ;;
  Ok (mk fd None port).

(** [Session.expose_data(data, dest)] with its default destination. *)
Definition expose_data (E : env) (s : t) (data : list Z) (dest : option (string * Z))
  : result t :=
  let dest := match dest with Some d => d | None => ("127.0.0.1"%string, 9999) end in
  surf <- expose_data E (sockfd s) data dest ;;
  Ok (mk (sockfd s) (Some surf) (port s)).

(** [Session.get_stats()]. *)
Definition get_stats (s : t) : Stats.t := Stats.default.

End Session.

Module Client.

Record t : Type := mk {
  sockfd : Z;
  port : Z
}.

(** [Client(port)]. *)
Definition init (E : env) (port : Z) : result t :=
  fd <- socket E ;;
  Ok (mk fd port).

(** [Client.pull_data(source, buffer, size)]. *)
Definition pull_data (E : env) (c : t) (source : string * Z) (buffer : list Z) (size : Z)
  : list Z * result Z :=
  pull_data E (sockfd c) source buffer size.

(** The size of the buffer of [pull_to_file]. *)
Definition buffer_size : Z := 65536.

(** [Client.pull_to_file(source, filename)]: one pull into a fresh
    [bytearray(65536)], then [f.write(buffer[:bytes_received])].  The result
    is the content written to [filename]. *)
Definition pull_to_file (E : env) (c : t) (source : string * Z) (filename : string)
  : result (list Z) :=
  let buffer := repeat 0 (Z.to_nat buffer_size) in
  let '(buffer', r) := pull_data E c source buffer (Z.of_nat (length buffer)) in
  bytes_received <- r ;;
  if can_open E filename then Ok (py_prefix buffer' bytes_received)
  else Raise OSError.

(** [Client.get_stats()]. *)
Definition get_stats (c : t) : Stats.t := Stats.default.

End Client.

(* ------------------------------------------------------------------------- *)
(** * ctypes structure layout (rgtp.py lines 89-110) *)

Module CLayout.

(** The ctypes field types used by the binding's structures. *)
Inductive ctype : Type :=
| c_uint8 | c_uint16 | c_uint32 | c_uint64 | c_int
| c_uint8_array (n : nat).

Definition sizeof (t : ctype) : nat :=
  match t with
  | c_uint8 => 1 | c_uint16 => 2 | c_uint32 => 4 | c_uint64 => 8 | c_int => 4
  | c_uint8_array n => n
  end.

Definition alignment (t : ctype) : nat :=
  match t with
  | c_uint8 => 1 | c_uint16 => 2 | c_uint32 => 4 | c_uint64 => 8 | c_int => 4
  | c_uint8_array _ => 1
  end.

(** Byte order of the host: a [ctypes.Structure] stores its integer fields
    in the host's native order. *)
Inductive endianness : Type := LittleEndian | BigEndian.

Definition align_up (x a : nat) : nat := ((x + a - 1) / a) * a.

(** Alignment of a field under [_pack_ = pack] (no [_pack_] is [pack = 8]). *)
Definition field_align (pack : nat) (t : ctype) : nat := Nat.min pack (alignment t).

Fixpoint struct_align (pack : nat) (fs : list ctype) : nat :=
  match fs with
  | [] => 1
  | t :: fs' => Nat.max (field_align pack t) (struct_align pack fs')
  end.

(** Offsets of the fields, starting at [off]. *)
Fixpoint offsets (pack off : nat) (fs : list ctype) : list nat :=
  match fs with
  | [] => []
  | t :: fs' =>
      let o := align_up off (field_align pack t) in
      o :: offsets pack (o + sizeof t) fs'
  end.

Fixpoint fields_end (pack off : nat) (fs : list ctype) : nat :=
  match fs with
  | [] => off
  | t :: fs' => fields_end pack (align_up off (field_align pack t) + sizeof t) fs'
  end.

(** [ctypes.sizeof] of a structure. *)
Definition sizeof_struct (pack : nat) (fs : list ctype) : nat :=
  align_up (fields_end pack 0 fs) (struct_align pack fs).

(** A field value: an integer or the elements of a byte array. *)
Inductive cval : Type := VInt (z : Z) | VBytes (l : list Z).

(** The [w] bytes of an unsigned integer field, the value wrapped modulo
    [2^(8w)] as ctypes stores it. *)
Definition int_bytes (e : endianness) (w : nat) (v : Z) : list Z :=
  let le := map (fun i => Z.land (Z.shiftr v (8 * Z.of_nat i)) 255) (seq 0 w) in
  match e with
  | LittleEndian => le
  | BigEndian => rev le
  end.

Definition array_bytes (n : nat) (l : list Z) : list Z :=
  map (fun b => Z.land b 255) (firstn n (l ++ repeat 0 n)).

Definition encode_field (e : endianness) (t : ctype) (v : cval) : list Z :=
  match t, v with
  | c_uint8_array n, VBytes l => array_bytes n l
  | c_uint8_array n, VInt _ => repeat 0 n
  | _, VInt z => int_bytes e (sizeof t) z
  | _, VBytes _ => repeat 0 (sizeof t)
  end.

(** The fields' bytes from offset [off], padding (zero bytes) inserted
    before each field up to its aligned offset. *)
Fixpoint encode_fields (e : endianness) (pack off : nat) (fs : list ctype) (vs : list cval)
  : list Z :=
  match fs, vs with
  | t :: fs', v :: vs' =>
      let o := align_up off (field_align pack t) in
      repeat 0 (o - off) ++ encode_field e t v ++ encode_fields e pack (o + sizeof t) fs' vs'
  | _, _ => []
  end.

(** [bytes(structure)]: the memory image of a structure, trailing padding
    included. *)
Definition encode_struct (e : endianness) (pack : nat) (fs : list ctype) (vs : list cval)
  : list Z :=
  let body := encode_fields e pack 0 fs vs in
  body ++ repeat 0 (sizeof_struct pack fs - length body).

End CLayout.

Import CLayout.

(** [_RGTPHeader], declared with [_pack_ = 1]. *)
Record header : Type := mk_header {
  h_version : Z; h_type : Z; h_flags : Z; h_session_id : Z;
  h_sequence : Z; h_chunk_size : Z; h_checksum : Z
}.

Definition header_pack : nat := 1.

Definition header_fields : list ctype :=
  [ c_uint8      (* version *)
  ; c_uint8      (* type *)
  ; c_uint16     (* flags *)
  ; c_uint32     (* session_id *)
  ; c_uint32     (* sequence *)
  ; c_uint32     (* chunk_size *)
  ; c_uint32 ].  (* checksum *)

Definition header_values (h : header) : list cval :=
  [ VInt (h_version h); VInt (h_type h); VInt (h_flags h); VInt (h_session_id h)
  ; VInt (h_sequence h); VInt (h_chunk_size h); VInt (h_checksum h) ].

Definition encode_header (host : endianness) (h : header) : list Z :=
  encode_struct host header_pack header_fields (header_values h).

(** [_RGTPManifest], declared with [_pack_ = 1]. *)
Record manifest : Type := mk_manifest {
  total_size : Z;
  chunk_count : Z;
  optimal_chunk_size : Z;
  exposure_mode : Z;
  priority : Z;
  content_hash : list Z
}.

Definition manifest_pack : nat := 1.

Definition manifest_fields : list ctype :=
  [ c_uint64             (* total_size *)
  ; c_uint32             (* chunk_count *)
  ; c_uint32             (* optimal_chunk_size *)
  ; c_uint16             (* exposure_mode *)
  ; c_uint16             (* priority *)
  ; c_uint8_array 32 ].  (* content_hash *)

Definition manifest_values (m : manifest) : list cval :=
  [ VInt (total_size m); VInt (chunk_count m); VInt (optimal_chunk_size m)
  ; VInt (exposure_mode m); VInt (priority m); VBytes (content_hash m) ].

Definition encode_manifest (host : endianness) (m : manifest) : list Z :=
  encode_struct host manifest_pack manifest_fields (manifest_values m).

(** The fields back to back, each integer in byte order [e]. *)
Definition packed_header (e : endianness) (h : header) : list Z :=
  int_bytes e 1 (h_version h) ++ int_bytes e 1 (h_type h)
  ++ int_bytes e 2 (h_flags h) ++ int_bytes e 4 (h_session_id h)
  ++ int_bytes e 4 (h_sequence h) ++ int_bytes e 4 (h_chunk_size h)
  ++ int_bytes e 4 (h_checksum h).

Definition packed_manifest (e : endianness) (m : manifest) : list Z :=
  int_bytes e 8 (total_size m) ++ int_bytes e 4 (chunk_count m)
  ++ int_bytes e 4 (optimal_chunk_size m) ++ int_bytes e 2 (exposure_mode m)
  ++ int_bytes e 2 (priority m) ++ array_bytes 32 (content_hash m).

(** The wire layout the spec describes: the fields back to back in network
    byte order (big endian), whatever the host. *)
Definition network_header (h : header) : list Z := packed_header BigEndian h.

Definition network_manifest (m : manifest) : list Z := packed_manifest BigEndian m.

(* ------------------------------------------------------------------------- *)
(** * Chunk store *)

Module ChunkStore.

(** Errors of reassembly. *)
Inductive store_error : Type := Incomplete | ChecksumMismatch.

Section ChunkStore.

(** The content hash: the spec leaves the digest pluggable. *)
Variable hash : list Z -> list Z.

(** Modelled from the spec: [split(payload, optimal_chunk_size)] of the
    native chunk store, absent from the repository's files.  The chunks are
    the consecutive slices of [chunk_size] bytes, the last one holding the
    remainder. *)
Fixpoint split_fuel (fuel : nat) (payload : list Z) (chunk_size : nat) : list (list Z) :=
  match fuel with
  | O => []
  | S f =>
      match payload with
      | [] => []
      | _ => firstn chunk_size payload :: split_fuel f (skipn chunk_size payload) chunk_size
      end
  end.

Definition split (payload : list Z) (chunk_size : nat) : list (list Z) :=
  split_fuel (length payload) payload chunk_size.

(** Modelled from the spec: the Manifest built for a payload:
    [chunk_count = ceil(total_size / optimal_chunk_size)] and [content_hash]
    the digest of the payload. *)
Definition build_manifest (payload : list Z) (chunk_size : nat) (mode prio : Z) : manifest :=
  mk_manifest (Z.of_nat (length payload))
    (Z.of_nat ((length payload + chunk_size - 1) / chunk_size))
    (Z.of_nat chunk_size) mode prio (hash payload).

Fixpoint list_Z_eqb (a b : list Z) : bool :=
  match a, b with
  | [], [] => true
  | x :: a', y :: b' => (x =? y) && list_Z_eqb a' b'
  | _, _ => false
  end.

(** Modelled from the spec: [reassemble(chunks, manifest)].  The chunk
    slots are indexed by chunk number, [None] for a chunk not received; every
    bit of the bitmap must be set, the chunks are concatenated in index order
    and the recomputed content hash is compared with the Manifest's, a
    mismatch discarding the output. *)
Definition reassemble (chunks : list (option (list Z))) (m : manifest)
  : list Z + store_error :=
  let bitmap := map (fun c => match c with Some _ => true | None => false end) chunks in
  if negb (Z.of_nat (length bitmap) =? chunk_count m) || negb (forallb id bitmap)
  then inr Incomplete
  else
    let payload := concat (map (fun c => match c with Some b => b | None => [] end) chunks) in
    if list_Z_eqb (hash payload) (content_hash m) then inl payload
    else inr ChecksumMismatch.

End ChunkStore.

End ChunkStore.

(* ------------------------------------------------------------------------- *)
(** * Sample processes *)

(** A process with the library loaded and no int-to-str limit, resolving
    only the literal 127.0.0.1, whose native expose and pull calls
    succeed. *)
Definition loaded_env : env :=
  mk_env true 0
    (fun ip => if String.eqb ip "127.0.0.1" then Some (127, 0, 0, 1) else None)
    (fun _ => None) 3 (fun _ _ => 0) (fun _ _ _ => (0, 7)) (fun _ _ _ => (0, [], 0))
    (fun _ => true) (fun _ => Some 0).

(** The same process whose native expose and pull calls fail. *)
Definition failing_env : env :=
  mk_env true 0 (inet_aton loaded_env) (gethostbyname loaded_env) 3 (fun _ _ => 0)
    (fun _ _ _ => (-1, 0)) (fun _ _ _ => (-1, [], 0)) (fun _ => true) (fun _ => Some 0).

(** The same process whose native pull writes two bytes and fails. *)
Definition partial_failure_env : env :=
  mk_env true 0 (inet_aton loaded_env) (gethostbyname loaded_env) 3 (fun _ _ => 0)
    (fun _ _ _ => (0, 0)) (fun _ _ _ => (-1, [9; 9], 2)) (fun _ => true) (fun _ => Some 0).

(** A process in which the native library did not load, with no int-to-str
    limit. *)
Definition mock_env : env :=
  mk_env false 0 (fun _ => None) (fun _ => None) 3 (fun _ _ => 0)
    (fun _ _ _ => (0, 0)) (fun _ _ _ => (0, [], 0)) (fun _ => true) (fun _ => Some 49).

(** The same process on Python 3.11 or later, with the default limit of 4300
    digits. *)
Definition mock_env_311 : env :=
  mk_env false 4300 (fun _ => None) (fun _ => None) 3 (fun _ _ => 0)
    (fun _ _ _ => (0, 0)) (fun _ _ _ => (0, [], 0)) (fun _ => true) (fun _ => Some 49).

(* ------------------------------------------------------------------------- *)
(** * Reading a field back *)

(** The integer an [int_bytes] field holds when read back through ctypes:
    the bytes taken least significant first. *)
Fixpoint le_value (bs : list Z) : Z :=
  match bs with
  | [] => 0
  | b :: bs' => b + 256 * le_value bs'
  end.

Definition decode_int (e : endianness) (bs : list Z) : Z :=
  match e with
  | LittleEndian => le_value bs
  | BigEndian => le_value (rev bs)
  end.

(* ------------------------------------------------------------------------- *)
(** * Convenience functions and HTTPSClient (rgtp.py lines 458-530) *)

Module Convenience.

(** The fields of [urllib.parse.urlparse(url)] that [download] reads:
    [scheme], [hostname], and the port text after the colon: [None] when there
    is none, [Some None] when [parsed.port] cannot cast it to an integer
    (ValueError), [Some (Some p)] when it reads as the integer [p]. *)
Record parsed_url : Type := mk_url {
  scheme : string;
  hostname : option string;
  port_int : option (option Z);
  path : string
}.

(** [parsed.port]: ValueError for a port that is not an integer or lies
    outside 0..65535. *)
Definition url_port (u : parsed_url) : result (option Z) :=
  match port_int u with
  | None => Ok None
  | Some None => Raise ValueError
  | Some (Some p) => if (0 <=? p) && (p <=? 65535) then Ok (Some p) else Raise ValueError
  end.

(** [parsed.hostname or 'localhost']. *)
Definition host_or_default (h : option string) : string :=
  match h with
  | Some s => if String.eqb s "" then "localhost" else s
  | None => "localhost"
  end.

(** [parsed.port or 443]: a port of 0 is falsy too. *)
Definition port_or_default (p : option Z) : Z :=
  match p with
  | Some n => if n =? 0 then 443 else n
  | None => 443
  end.

(** [Stats(bytes_transferred=file_size, total_bytes=file_size,
    completion_percent=100.0)]. *)
Definition transfer_stats (file_size : Z) : Stats.t :=
  Stats.mk file_size file_size 0 0 0 0 0 100 0 0.

(** [os.path.getsize(filename)]. *)
Definition getsize_r (E : env) (filename : string) : result Z :=
  match getsize E filename with
  | Some k => Ok k
  | None => Raise OSError
  end.

Section Convenience.

(** [str(e)] of a caught exception. *)
Variable exc_str : exc -> string.

(** [urllib.parse.urlparse(url)]: [None] for its ValueError (an invalid
    IPv6 netloc). *)
Variable urlparse : string -> option parsed_url.

(** [HTTPSClient.download(url, output_file)].  The URL is parsed, its
    scheme, host and port checked and defaulted outside the [try]; the pull
    and [os.path.getsize] inside it, every exception there re-raised as
    [RGTPError("HTTPS download failed: ...")].  The prints format a port
    in 0..65535, which always prints. *)
Definition download (E : env) (c : Client.t) (url : string) (output_file : string)
  : result Stats.t :=
  match urlparse url with
  | None => Raise ValueError
  | Some u =>
      if negb (String.eqb (scheme u) "https") then Raise ValueError
      else
        let host := host_or_default (hostname u) in
        p <- url_port u ;;
        let port := port_or_default p in
        match (_ <- Client.pull_to_file E c (host, port) output_file ;;
               getsize_r E output_file) with
        | Ok file_size => Ok (transfer_stats file_size)
        | Raise e => Raise (RGTPError ("HTTPS download failed: " ++ exc_str e))
        end
  end.

End Convenience.

(** [Session.expose_file(filename)]: [open(filename, 'rb').read()], given as
    [read], then exposure to the fixed destination 127.0.0.1:9999. *)
Definition expose_file (E : env) (read : string -> result (list Z)) (s : Session.t)
  (filename : string) : result Session.t :=
  data <- read filename ;;
  Session.expose_data E s data (Some ("127.0.0.1"%string, 9999)).

(** [send_file(filename, host, port)]: a [Session()] on port 9999, the file
    exposed, and [os.path.getsize(filename)] reported; [close()] does
    nothing. *)
Definition send_file (E : env) (read : string -> result (list Z)) (filename : string)
  (host : string) (port : Z) : result Stats.t :=
  s <- Session.init E 9999 ;;
  _ <- expose_file E read s filename ;;
  file_size <- getsize_r E filename ;;
  Ok (transfer_stats file_size).

(** [receive_file(host, port, filename)]: a [Client()], one [pull_to_file],
    and [os.path.getsize(filename)] reported: the file was just opened with
    ['wb'] and written, so its size is the number of bytes written. *)
Definition receive_file (E : env) (host : string) (port : Z) (filename : string)
  : result Stats.t :=
  c <- Client.init E 0 ;;
  f <- Client.pull_to_file E c (host, port) filename ;;
  Ok (transfer_stats (Z.of_nat (length f))).

End Convenience.

(* ========================================================================= *)
(** * Properties *)

Example mock_data_length : length mock_data = 49%nat.
Proof. reflexivity. Qed.

Lemma overflow_threshold_gt_1 : 1 < overflow_threshold.
Proof. unfold overflow_threshold, Z.lt. reflexivity. Qed.

Lemma float_100_value : exists v, float_value float_100 = Some v /\ (v == 100)%Q.
Proof. eexists; split; reflexivity. Qed.

(** Claim C1 (counterexample): the code evaluates the formula in floating
    point.  With [chunks_transferred = 10^400] and [retransmissions =
    1 - 10^400] the quotient is too large for a double and the property
    raises OverflowError where the formula has a value; with [10^307] and
    [1 - 10^307] the product overflows to [inf]; with [10^20] chunks and one
    retransmission the quotient rounds to 1 and the property is exactly
    100.0, where the formula is below 100. *)
Lemma efficiency_percent_rounding_counterexample :
  Stats.efficiency_percent (Stats.mk 0 0 0 0 (10 ^ 400) 0 (1 - 10 ^ 400) 0 0 0)
    = Raise OverflowError /\
  Stats.spec_efficiency_percent (Stats.mk 0 0 0 0 (10 ^ 400) 0 (1 - 10 ^ 400) 0 0 0)
    = Some (inject_Z (10 ^ 400) / inject_Z 1 * 100)%Q /\
  Stats.efficiency_percent (Stats.mk 0 0 0 0 (10 ^ 307) 0 (1 - 10 ^ 307) 0 0 0)
    = Ok (Infinity false) /\
  Stats.efficiency_percent (Stats.mk 0 0 0 0 (10 ^ 20) 0 1 0 0 0) = Ok float_100 /\
  exists q, Stats.spec_efficiency_percent (Stats.mk 0 0 0 0 (10 ^ 20) 0 1 0 0 0) = Some q /\
            (q < 100)%Q.
Proof.
  split; [vm_compute; reflexivity|].
  split; [vm_compute; reflexivity|].
  split; [vm_compute; reflexivity|].
  split; [vm_compute; reflexivity|].
  eexists; split; [vm_compute; reflexivity|].
  unfold Qlt. vm_compute. reflexivity.
Qed.

(** Claim C1 (amended): [efficiency_percent] is [100.0] when
    [chunks_transferred] is 0.  Otherwise it computes
    [chunks_transferred / (chunks_transferred + retransmissions)] as the
    double nearest to the exact quotient, raising ZeroDivisionError when the
    divisor is 0 and OverflowError when the quotient rounds beyond the largest
    double, and multiplies it by [100.0], rounding again (to [inf] on
    overflow).  With non-negative counters it never raises. *)
Theorem efficiency_percent_binary64 (s : Stats.t) :
  (Stats.chunks_transferred s = 0 -> Stats.efficiency_percent s = Ok float_100) /\
  (Stats.chunks_transferred s <> 0 ->
   Stats.chunks_transferred s + Stats.retransmissions s = 0 ->
   Stats.efficiency_percent s = Raise ZeroDivisionError) /\
  (Stats.chunks_transferred s <> 0 ->
   Stats.chunks_transferred s + Stats.retransmissions s <> 0 ->
   overflow_threshold * Z.abs (Stats.chunks_transferred s + Stats.retransmissions s)
     <= Z.abs (Stats.chunks_transferred s) ->
   Stats.efficiency_percent s = Raise OverflowError) /\
  (Stats.chunks_transferred s <> 0 ->
   Stats.chunks_transferred s + Stats.retransmissions s <> 0 ->
   Z.abs (Stats.chunks_transferred s)
     < overflow_threshold * Z.abs (Stats.chunks_transferred s + Stats.retransmissions s) ->
   Stats.efficiency_percent s =
   Ok (float_mul
         (round_to_float
            (xorb (Stats.chunks_transferred s <? 0)
                  (Stats.chunks_transferred s + Stats.retransmissions s <? 0))
            (Z.abs (Stats.chunks_transferred s))
            (Z.abs (Stats.chunks_transferred s + Stats.retransmissions s)))
         float_100)) /\
  (0 <= Stats.chunks_transferred s -> 0 <= Stats.retransmissions s ->
   exists x, Stats.efficiency_percent s = Ok x) /\
  (exists v, float_value float_100 = Some v /\ (v == 100)%Q).
Proof.
  unfold Stats.efficiency_percent, int_true_div. cbv zeta.
  set (c := Stats.chunks_transferred s). set (r := Stats.retransmissions s).
  split; [|split; [|split; [|split; [|split]]]].
  - intros H. rewrite H. reflexivity.
  - intros Hc Ht. rewrite (proj2 (Z.eqb_neq c 0) Hc), Ht. reflexivity.
  - intros Hc Ht Ho.
    rewrite (proj2 (Z.eqb_neq c 0) Hc), (proj2 (Z.eqb_neq (c + r) 0) Ht).
    rewrite (proj2 (Z.leb_le _ _) Ho). reflexivity.
  - intros Hc Ht Ho.
    rewrite (proj2 (Z.eqb_neq c 0) Hc), (proj2 (Z.eqb_neq (c + r) 0) Ht).
    rewrite (proj2 (Z.leb_gt _ _) Ho). reflexivity.
  - intros Hc Hr. destruct (Z.eqb_spec c 0) as [H0|H0]; [eexists; reflexivity|].
    rewrite (proj2 (Z.eqb_neq (c + r) 0)) by lia.
    pose proof overflow_threshold_gt_1 as T.
    rewrite (proj2 (Z.leb_gt _ _)); [eexists; reflexivity|].
    rewrite !Z.abs_eq by lia. nia.
  - exact float_100_value.
Qed.

(** Claim C10: for every Session and Client, [get_stats()] is a fresh
    [Stats()] with every counter zero, so its [efficiency_percent] is 100.0
    and its [completion_percent] 0.0. *)
Theorem get_stats_all_zero (s : Session.t) (c : Client.t) :
  Session.get_stats s = Stats.default /\ Client.get_stats c = Stats.default /\
  Stats.bytes_transferred Stats.default = 0 /\ Stats.total_bytes Stats.default = 0 /\
  Stats.chunks_transferred Stats.default = 0 /\ Stats.retransmissions Stats.default = 0 /\
  Stats.completion_percent Stats.default = 0%Q /\
  Stats.efficiency_percent (Session.get_stats s) = Ok float_100 /\
  Stats.efficiency_percent (Client.get_stats c) = Ok float_100 /\
  (exists v, float_value float_100 = Some v /\ (v == 100)%Q).
Proof.
  do 9 (split; [reflexivity|]). exact float_100_value.
Qed.

(** Any state a Session reaches by exposing data reports the same zero
    statistics. *)
Lemma session_stats_after_expose (E : env) (s s' : Session.t) data dest :
  Session.expose_data E s data dest = Ok s' -> Session.get_stats s' = Stats.default.
Proof. reflexivity. Qed.

Lemma slice_bound_nonneg (n : nat) (k : Z) :
  0 <= k -> slice_bound n k = Nat.min (Z.to_nat k) n.
Proof.
  intros Hk. unfold slice_bound. destruct (Z.ltb_spec k 0); [lia | reflexivity].
Qed.

Lemma slice_bound_neg (n : nat) (k : Z) :
  k < 0 -> slice_bound n k = Z.to_nat (Z.of_nat n + k).
Proof.
  intros Hk. unfold slice_bound. destruct (Z.ltb_spec k 0); [|lia]. lia.
Qed.

(** For a non-negative bound, [a[:k] = x] keeps [a[k:]]. *)
Lemma py_prefix_assign_nonneg {A : Type} (a x : list A) (k : Z) :
  0 <= k -> py_prefix_assign a k x = x ++ skipn (Z.to_nat k) a.
Proof.
  intros Hk. unfold py_prefix_assign. rewrite slice_bound_nonneg by exact Hk.
  f_equal. destruct (Nat.le_ge_cases (Z.to_nat k) (length a)) as [Hle | Hge].
  - rewrite Nat.min_l by exact Hle. reflexivity.
  - rewrite Nat.min_r by exact Hge. rewrite !skipn_all2 by lia. reflexivity.
Qed.

Lemma py_prefix_nonneg {A : Type} (a : list A) (k : Z) :
  0 <= k -> py_prefix a k = firstn (Z.to_nat k) a.
Proof.
  intros Hk. unfold py_prefix. rewrite slice_bound_nonneg by exact Hk.
  destruct (Nat.le_ge_cases (Z.to_nat k) (length a)) as [Hle | Hge].
  - rewrite Nat.min_l by exact Hle. reflexivity.
  - rewrite Nat.min_r by exact Hge. rewrite firstn_all, firstn_all2 by lia. reflexivity.
Qed.

Lemma prints_small (E : env) (n : Z) : Z.abs n < 10 ^ 4 -> prints E n = true.
Proof.
  intros H. unfold prints, prints_int.
  destruct (0 <? max_str_digits E); [|reflexivity]. cbn [andb].
  assert (Hp : 10 ^ 4 <= 10 ^ Z.max 640 (max_str_digits E)) by (apply Z.pow_le_mono_r; lia).
  destruct (Z.leb_spec (10 ^ Z.max 640 (max_str_digits E)) (Z.abs n)); [lia | reflexivity].
Qed.

Lemma prints_large (E : env) (n : Z) :
  max_str_digits E = 4300 -> 10 ^ 4300 <= Z.abs n -> prints E n = false.
Proof.
  intros HL Hn. unfold prints, prints_int. rewrite HL.
  change (Z.max 640 4300) with 4300. change (0 <? 4300) with true.
  apply Z.leb_le in Hn. rewrite Hn. reflexivity.
Qed.

Lemma py_str_int_prints (E : env) (n : Z) :
  py_str_int (max_str_digits E) n =
  if prints E n then Ok (z_to_string n) else Raise ValueError.
Proof. reflexivity. Qed.

(** Claim C9 (counterexample): without the library, [pull_data] with
    [size = -3] copies 46 bytes (the slices count from the end), growing an
    empty buffer, and returns [-3]; and on Python 3.11 or later [bind] raises
    ValueError for a port of more than 4300 digits, from its warning. *)
Lemma mock_primitives_counterexample :
  pull_data mock_env 1 ("127.0.0.1"%string, 9999) [] (-3) = (firstn 46 mock_data, Ok (-3)) /\
  length (firstn 46 mock_data) = 46%nat /\
  bind mock_env_311 1 (10 ^ 4300) = Raise ValueError.
Proof.
  split; [vm_compute; reflexivity|]. split; [reflexivity|].
  unfold bind. change (lib_loaded mock_env_311) with false. cbn [negb].
  rewrite py_str_int_prints, prints_large.
  - reflexivity.
  - reflexivity.
  - rewrite Z.abs_eq by (apply Z.pow_nonneg; lia). apply Z.le_refl.
Qed.

(** Claim C9 (amended): without the native library [socket()] returns the
    handle 1; [bind], [expose_data] and [pull_data] raise only ValueError,
    exactly when the port their warning prints has more digits than the
    int-to-str limit; otherwise [bind] and [expose_data] return [None] and
    [pull_data] returns [min(49, size)] as success.  For [size >= 0] it has
    copied the first [min(49, size)] bytes of the mock HTML payload to the
    front of the buffer; for a negative [size] the slices count from the
    end: the first [len(buffer) + size] bytes of the buffer are replaced by
    the first [49 + size] mock bytes (none when negative). *)
Theorem mock_primitives_outcomes (E : env) (Hmock : lib_loaded E = false) :
  socket E = Ok 1 /\
  (forall sockfd port,
     bind E sockfd port = if prints E port then Ok tt else Raise ValueError) /\
  (forall sockfd data ip port,
     expose_data E sockfd data (ip, port) = if prints E port then Ok None else Raise ValueError) /\
  (forall sockfd ip port buffer size,
     prints E port = false ->
     pull_data E sockfd (ip, port) buffer size = (buffer, Raise ValueError)) /\
  (forall sockfd ip port buffer size,
     prints E port = true ->
     snd (pull_data E sockfd (ip, port) buffer size) = Ok (Z.min 49 size) /\
     (0 <= size ->
      fst (pull_data E sockfd (ip, port) buffer size) =
      firstn (Z.to_nat (Z.min 49 size)) mock_data ++ skipn (Z.to_nat (Z.min 49 size)) buffer) /\
     (size < 0 ->
      fst (pull_data E sockfd (ip, port) buffer size) =
      firstn (Z.to_nat (49 + size)) mock_data
      ++ skipn (Z.to_nat (Z.of_nat (length buffer) + size)) buffer)).
Proof.
  unfold socket, bind, expose_data, pull_data. rewrite Hmock. cbn [negb snd].
  split; [reflexivity|].
  split; [intros sockfd port; rewrite py_str_int_prints; destruct (prints E port); reflexivity|].
  split; [intros sockfd data ip port; rewrite py_str_int_prints;
          destruct (prints E port); reflexivity|].
  split; [intros sockfd ip port buffer size Hp; rewrite Hp; reflexivity|].
  intros sockfd ip port buffer size Hp. rewrite Hp. rewrite mock_data_length.
  split; [reflexivity|]. split.
  - intros Hs. cbn [fst].
    assert (Hc : 0 <= Z.min 49 size) by lia.
    rewrite py_prefix_assign_nonneg, py_prefix_nonneg by exact Hc. reflexivity.
  - intros Hs. cbn [fst]. rewrite Z.min_r by lia.
    unfold py_prefix_assign, py_prefix.
    rewrite !slice_bound_neg by exact Hs. rewrite mock_data_length. reflexivity.
Qed.

Lemma mock_primitives_outcomes_witness :
  lib_loaded mock_env = false /\ prints mock_env 9999 = true /\
  snd (pull_data mock_env 1 ("127.0.0.1"%string, 9999) (repeat 0 100%nat) 100) = Ok 49.
Proof.
  split; [reflexivity|]. split; [reflexivity|].
  destruct (mock_primitives_outcomes mock_env eq_refl) as (_ & _ & _ & _ & Hpull).
  exact (proj1 (Hpull 1 "127.0.0.1"%string 9999 (repeat 0 100%nat) 100 eq_refl)).
Defined.
Lemma pack_port_in_range (port : Z) :
  0 <= port <= 65535 -> pack_port port = Ok (port / 256, port mod 256).
Proof.
  intros Hp. unfold pack_port.
  replace ((0 <=? port) && (port <=? 65535)) with true
    by (symmetry; apply andb_true_intro; split; apply Z.leb_le; lia).
  reflexivity.
Qed.

Lemma pack_port_out_of_range (port : Z) :
  ~ (0 <= port <= 65535) -> pack_port port = Raise StructError.
Proof.
  intros Hp. unfold pack_port.
  destruct (Z.leb_spec 0 port), (Z.leb_spec port 65535); simpl; try reflexivity; lia.
Qed.

Lemma array_bytes_length (n : nat) (l : list Z) : length (array_bytes n l) = n.
Proof.
  unfold array_bytes. rewrite length_map, length_firstn, length_app, repeat_length. lia.
Qed.

Lemma int_bytes_length (e : endianness) (w : nat) (v : Z) : length (int_bytes e w v) = w.
Proof.
  unfold int_bytes. destruct e; rewrite ?length_rev, length_map, length_seq; reflexivity.
Qed.

(** The memory image of a Manifest is its fields back to back. *)
Lemma encode_manifest_packed (host : endianness) (m : manifest) :
  encode_manifest host m = packed_manifest host m.
Proof.
  unfold encode_manifest, encode_struct, packed_manifest.
  change (sizeof_struct manifest_pack manifest_fields) with 52%nat.
  change (encode_fields host manifest_pack 0 manifest_fields (manifest_values m)) with
    (int_bytes host 8 (total_size m) ++ int_bytes host 4 (chunk_count m)
     ++ int_bytes host 4 (optimal_chunk_size m) ++ int_bytes host 2 (exposure_mode m)
     ++ int_bytes host 2 (priority m) ++ array_bytes 32 (content_hash m) ++ []).
  rewrite app_nil_r, !length_app, !int_bytes_length, array_bytes_length.
  simpl (_ - _)%nat. apply app_nil_r.
Qed.

(** The memory image of a Header is its fields back to back. *)
Lemma encode_header_packed (host : endianness) (h : header) :
  encode_header host h = packed_header host h.
Proof.
  unfold encode_header, encode_struct, packed_header.
  change (sizeof_struct header_pack header_fields) with 20%nat.
  change (encode_fields host header_pack 0 header_fields (header_values h)) with
    (int_bytes host 1 (h_version h) ++ int_bytes host 1 (h_type h)
     ++ int_bytes host 2 (h_flags h) ++ int_bytes host 4 (h_session_id h)
     ++ int_bytes host 4 (h_sequence h) ++ int_bytes host 4 (h_chunk_size h)
     ++ int_bytes host 4 (h_checksum h) ++ []).
  rewrite app_nil_r, !length_app, !int_bytes_length.
  simpl (_ - _)%nat. apply app_nil_r.
Qed.

(** Claim C5: the Manifest occupies 52 bytes: total_size (8 bytes at offset
    0), chunk_count (4 at 8), optimal_chunk_size (4 at 12), exposure_mode (2
    at 16), priority (2 at 18) and content_hash (32 at 20), with no padding,
    whatever the host. *)
Theorem manifest_layout_52 :
  offsets manifest_pack 0 manifest_fields = [0; 8; 12; 16; 18; 20]%nat /\
  map sizeof manifest_fields = [8; 4; 4; 2; 2; 32]%nat /\
  sizeof_struct manifest_pack manifest_fields = 52%nat /\
  forall (host : endianness) (m : manifest),
    length (encode_manifest host m) = 52%nat /\
    encode_manifest host m =
      int_bytes host 8 (total_size m) ++ int_bytes host 4 (chunk_count m)
      ++ int_bytes host 4 (optimal_chunk_size m) ++ int_bytes host 2 (exposure_mode m)
      ++ int_bytes host 2 (priority m) ++ array_bytes 32 (content_hash m).
Proof.
  split; [reflexivity|]. split; [reflexivity|]. split; [reflexivity|].
  intros host m. rewrite encode_manifest_packed. split; [|reflexivity].
  unfold packed_manifest.
  rewrite !length_app, !int_bytes_length, array_bytes_length. reflexivity.
Qed.

(** Without [_pack_ = 1] the same fields would take 56 bytes. *)
Example manifest_unpacked_size : sizeof_struct 8 manifest_fields = 56%nat.
Proof. reflexivity. Qed.

(** A Manifest whose total_size is 1. *)
Definition manifest_one : manifest := mk_manifest 1 0 0 0 0 [].

(** Claim C4 (counterexample): the image of a Manifest is not the network
    order layout on a little-endian host, and it differs between hosts. *)
Lemma manifest_host_order_counterexample :
  encode_manifest LittleEndian manifest_one <> network_manifest manifest_one /\
  encode_manifest LittleEndian manifest_one <> encode_manifest BigEndian manifest_one.
Proof. split; vm_compute; discriminate. Qed.

(** The port bytes of the [sockaddr_in]: [struct.pack('>H', port)] is the
    port's two bytes, most significant first. *)
Lemma sockaddr_port_bytes (E : env) (ip : string) (port : Z) (addr : list Z) :
  sockaddr E (ip, port) = Ok addr ->
  0 <= port <= 65535 /\ firstn 2 (skipn 2 addr) = int_bytes BigEndian 2 port.
Proof.
  intros H. unfold sockaddr in H.
  destruct (Z.le_decidable 0 port) as [H1|H1];
    [destruct (Z.le_decidable port 65535) as [H2|H2]|].
  - rewrite pack_port_in_range in H by lia. cbn [bind_result] in H.
    destruct (resolve E ip) as [[[[b0 b1] b2] b3]|e]; [|discriminate].
    injection H as <-. split; [lia|].
    change (int_bytes BigEndian 2 port) with
      [Z.land (Z.shiftr port (8 * Z.of_nat 1)) 255; Z.land (Z.shiftr port (8 * Z.of_nat 0)) 255].
    change (8 * Z.of_nat 1) with 8. change (8 * Z.of_nat 0) with 0.
    rewrite Z.shiftr_0_r, Z.shiftr_div_pow2 by lia.
    replace 255 with (Z.ones 8) by reflexivity. rewrite !Z.land_ones by lia.
    change (2 ^ 8) with 256. cbn [firstn skipn].
    rewrite (Z.mod_small (port / 256) 256); [reflexivity|].
    split; [apply Z.div_pos; lia | apply Z.div_lt_upper_bound; lia].
  - rewrite pack_port_out_of_range in H by lia. discriminate.
  - rewrite pack_port_out_of_range in H by lia. discriminate.
Qed.

(** Claim C4 (amended): the Header and Manifest structures are declared as
    packed ctypes Structures in the host's byte order: each multi-byte field
    is stored in the host's order, which is network order on a big-endian
    host and its byte reversal on a little-endian host.  Only the port of
    the [sockaddr_in] that [expose_data] and [pull_data] build is packed big
    endian, on every host. *)
Theorem wire_layout_host_order :
  (forall (host : endianness) (h : header) (m : manifest),
    encode_header host h = packed_header host h /\
    encode_manifest host m = packed_manifest host m /\
    encode_header BigEndian h = network_header h /\
    encode_manifest BigEndian m = network_manifest m) /\
  (forall w v, int_bytes LittleEndian w v = rev (int_bytes BigEndian w v)) /\
  (forall (E : env) (ip : string) (port : Z) (addr : list Z),
    sockaddr E (ip, port) = Ok addr ->
    0 <= port <= 65535 /\ firstn 2 (skipn 2 addr) = int_bytes BigEndian 2 port).
Proof.
  split; [|split].
  - intros host h m.
    split; [apply encode_header_packed|]. split; [apply encode_manifest_packed|].
    split; [apply encode_header_packed | apply encode_manifest_packed].
  - intros w v. unfold int_bytes. symmetry. apply rev_involutive.
  - exact sockaddr_port_bytes.
Qed.

Section ChunkStoreProofs.

Variable hash : list Z -> list Z.

Lemma split_fuel_concat (fuel : nat) (payload : list Z) (c : nat) :
  (0 < c)%nat -> (length payload <= fuel)%nat ->
  concat (ChunkStore.split_fuel fuel payload c) = payload.
Proof.
  intros Hc. revert payload. induction fuel as [|f IH]; intros payload Hlen.
  - destruct payload; [reflexivity | simpl in Hlen; lia].
  - destruct payload as [|x t]; [reflexivity|].
    cbn [ChunkStore.split_fuel concat]. rewrite IH.
    + apply firstn_skipn.
    + rewrite length_skipn. cbn [length] in *. lia.
Qed.

Lemma split_fuel_length (fuel : nat) (payload : list Z) (c : nat) :
  (0 < c)%nat -> (length payload <= fuel)%nat ->
  length (ChunkStore.split_fuel fuel payload c) = ((length payload + c - 1) / c)%nat.
Proof.
  intros Hc. revert payload. induction fuel as [|f IH]; intros payload Hlen.
  - destruct payload; [|simpl in Hlen; lia].
    simpl. rewrite Nat.div_small; lia.
  - destruct payload as [|x t].
    + simpl. rewrite Nat.div_small; lia.
    + cbn [ChunkStore.split_fuel length]. rewrite IH; [|rewrite length_skipn; cbn [length] in Hlen |- *; lia].
      rewrite length_skipn. cbn [length]. set (n := S (length t)).
      assert (Hn : (1 <= n)%nat) by (unfold n; lia).
      replace (n + c - 1)%nat with ((n - 1) + 1 * c)%nat by lia.
      rewrite Nat.div_add by lia.
      assert (Hq : ((n - c + c - 1) / c = (n - 1) / c)%nat).
      { destruct (Nat.le_gt_cases n c).
        - rewrite !Nat.div_small by lia. reflexivity.
        - f_equal. lia. }
      rewrite Hq. lia.
Qed.

Lemma list_Z_eqb_refl (l : list Z) : ChunkStore.list_Z_eqb l l = true.
Proof.
  induction l as [|x l IH]; [reflexivity|]. simpl. rewrite Z.eqb_refl, IH. reflexivity.
Qed.

Lemma all_received (chunks : list (list Z)) :
  forallb id (map (fun c : option (list Z) => match c with Some _ => true | None => false end)
                  (map Some chunks)) = true.
Proof. induction chunks as [|x l IH]; [reflexivity|]. exact IH. Qed.

Lemma unwrap_received (chunks : list (list Z)) :
  map (fun c : option (list Z) => match c with Some b => b | None => [] end) (map Some chunks)
  = chunks.
Proof. induction chunks as [|x l IH]; [reflexivity|]. simpl. f_equal. exact IH. Qed.

End ChunkStoreProofs.

(** The chunks of [split]: all of [chunk_size] bytes but the last. *)
Example split_example :
  ChunkStore.split [1; 2; 3; 4; 5] 2 = [[1; 2]; [3; 4]; [5]].
Proof. reflexivity. Qed.

(** Claim C2: for every non-empty payload and chunk size [C > 0],
    reassembling [split(payload, C)], every chunk received, against the
    payload's Manifest yields the payload, and the content hash recomputed
    from the reassembled bytes equals the Manifest's [content_hash]. *)
Theorem split_reassemble_roundtrip
  (hash : list Z -> list Z) (payload : list Z) (C : nat) (mode prio : Z)
  (Hne : payload <> []) (HC : (0 < C)%nat) :
  let m := ChunkStore.build_manifest hash payload C mode prio in
  ChunkStore.reassemble hash (map Some (ChunkStore.split payload C)) m = inl payload /\
  hash (concat (ChunkStore.split payload C)) = content_hash m.
Proof.
  intros m. unfold ChunkStore.split.
  rewrite split_fuel_concat by (exact HC || lia). split; [|reflexivity].
  unfold ChunkStore.reassemble. rewrite all_received, unwrap_received, !length_map.
  rewrite split_fuel_length by (exact HC || lia).
  rewrite split_fuel_concat by (exact HC || lia).
  unfold m, ChunkStore.build_manifest. cbn [chunk_count content_hash].
  rewrite Z.eqb_refl, list_Z_eqb_refl. reflexivity.
Qed.

Lemma split_reassemble_roundtrip_witness :
  [1; 2; 3; 4; 5] <> [] /\ (0 < 2)%nat /\
  ChunkStore.reassemble (fun l => [fold_left Z.add l 0])
    (map Some (ChunkStore.split [1; 2; 3; 4; 5] 2))
    (ChunkStore.build_manifest (fun l => [fold_left Z.add l 0]) [1; 2; 3; 4; 5] 2 0 0)
  = inl [1; 2; 3; 4; 5].
Proof.
  split; [discriminate|]. split; [lia|].
  exact (proj1 (split_reassemble_roundtrip (fun l => [fold_left Z.add l 0])
                  [1; 2; 3; 4; 5] 2 0 0 ltac:(discriminate) ltac:(lia))).
Defined.
(* ------------------------------------------------------------------------- *)
(** ** The primitives' outcomes *)

Lemma resolve_raise (E : env) (ip : string) (e : exc) :
  resolve E ip = Raise e -> e = ValueError \/ class_of e = C_RGTPError.
Proof.
  unfold resolve. destruct (has_nul ip); [intros H; injection H as <-; left; reflexivity|].
  destruct (inet_aton E ip); [discriminate|].
  destruct (gethostbyname E ip) as [ip_addr|];
    [destruct (has_nul ip_addr); [|destruct (inet_aton E ip_addr); [discriminate|]]|];
    intros H; injection H as <-; right; reflexivity.
Qed.

Lemma sockaddr_raise (E : env) (dest : string * Z) (e : exc) :
  sockaddr E dest = Raise e -> e = ValueError \/ e = StructError \/ class_of e = C_RGTPError.
Proof.
  destruct dest as [ip port]. unfold sockaddr.
  destruct (pack_port port) as [[p0 p1]|e0] eqn:Hp; cbn [bind_result].
  - destruct (resolve E ip) as [[[[b0 b1] b2] b3]|e0] eqn:Hr; cbn [bind_result];
      [discriminate|].
    intros H; injection H as <-. destruct (resolve_raise E ip e0 Hr); tauto.
  - unfold pack_port in Hp. destruct (_ && _); [discriminate|].
    injection Hp as <-. intros H; injection H as <-. tauto.
Qed.

Lemma py_str_int_raise (limit n : Z) (e : exc) :
  py_str_int limit n = Raise e -> e = ValueError.
Proof.
  unfold py_str_int. destruct (prints_int limit n); intros H; [discriminate H|].
  injection H as <-. reflexivity.
Qed.

Lemma mock_bind (E : env) (sockfd port : Z) :
  lib_loaded E = false -> bind E sockfd port = if prints E port then Ok tt else Raise ValueError.
Proof.
  intros Hmock. unfold bind. rewrite Hmock, py_str_int_prints. cbn [negb].
  destruct (prints E port); reflexivity.
Qed.

Lemma mock_expose_data (E : env) (sockfd : Z) (data : list Z) (ip : string) (port : Z) :
  lib_loaded E = false ->
  expose_data E sockfd data (ip, port) = if prints E port then Ok None else Raise ValueError.
Proof.
  intros Hmock. unfold expose_data. rewrite Hmock, py_str_int_prints. cbn [negb snd].
  destruct (prints E port); reflexivity.
Qed.

Lemma mock_pull_data (E : env) (sockfd : Z) (ip : string) (port : Z) (buffer : list Z)
  (size : Z) :
  lib_loaded E = false ->
  pull_data E sockfd (ip, port) buffer size =
  if prints E port
  then (py_prefix_assign buffer (Z.min 49 size) (py_prefix mock_data (Z.min 49 size)),
        Ok (Z.min 49 size))
  else (buffer, Raise ValueError).
Proof.
  intros Hmock. unfold pull_data. rewrite Hmock, mock_data_length. reflexivity.
Qed.

Lemma mock_pull_data_nonneg (E : env) (sockfd : Z) (ip : string) (port : Z)
  (buffer : list Z) (size : Z) :
  lib_loaded E = false -> prints E port = true -> 0 <= size ->
  pull_data E sockfd (ip, port) buffer size =
  (firstn (Z.to_nat (Z.min 49 size)) mock_data ++ skipn (Z.to_nat (Z.min 49 size)) buffer,
   Ok (Z.min 49 size)).
Proof.
  intros Hmock Hp Hs. rewrite mock_pull_data, Hp by exact Hmock.
  assert (Hc : 0 <= Z.min 49 size) by lia.
  rewrite py_prefix_assign_nonneg, py_prefix_nonneg by exact Hc. reflexivity.
Qed.

Lemma mock_session_init (E : env) (port : Z) :
  lib_loaded E = false ->
  Session.init E port = if prints E port then Ok (Session.mk 1 None port) else Raise ValueError.
Proof.
  intros Hmock. unfold Session.init, socket. rewrite Hmock. cbn [negb bind_result].
  rewrite (mock_bind E 1 port Hmock). destruct (prints E port); reflexivity.
Qed.

(** With the library loaded and the address built, a native pull reporting
    failure raises RGTPError, the bytes it wrote kept in the caller's
    buffer. *)
Lemma pull_data_native_failure (E : env) (sockfd : Z) (source : string * Z)
  (buffer : list Z) (size : Z) (addr written : list Z) (status n : Z) :
  lib_loaded E = true -> sockaddr E source = Ok addr ->
  0 <= size <= Z.of_nat (length buffer) ->
  rgtp_pull_data E sockfd addr size = (status, written, n) -> status < 0 ->
  pull_data E sockfd source buffer size =
  (firstn (Z.to_nat size) written
     ++ skipn (length (firstn (Z.to_nat size) written)) buffer,
   Raise (RGTPError "Failed to pull data")).
Proof.
  intros Hloaded Haddr Hsize Hnative Hstatus.
  unfold pull_data. rewrite Hloaded, Haddr. cbn [negb].
  rewrite (proj2 (Z.ltb_ge size 0)), (proj2 (Z.ltb_ge (Z.of_nat (length buffer)) size))
    by lia.
  rewrite Hnative. apply Z.ltb_lt in Hstatus. rewrite Hstatus. reflexivity.
Qed.

(** A pull into a buffer of exactly [size] bytes raises no OverflowError. *)
Lemma pull_data_raise_fitting (E : env) (sockfd : Z) (source : string * Z)
  (buffer : list Z) (size : Z) (buffer' : list Z) (e : exc) :
  Z.of_nat (length buffer) = size ->
  pull_data E sockfd source buffer size = (buffer', Raise e) ->
  e = ValueError \/ e = StructError \/ class_of e = C_RGTPError.
Proof.
  intros Hsize. unfold pull_data. destruct (lib_loaded E); cbn [negb].
  - destruct (sockaddr E source) as [addr|e0] eqn:Hs.
    + rewrite Hsize, Z.ltb_irrefl, (proj2 (Z.ltb_ge size 0)) by lia.
      destruct (rgtp_pull_data E sockfd addr size) as [[status written] n0].
      destruct (status <? 0); intros H; [injection H as _ <-; right; right; reflexivity|].
      discriminate H.
    + intros H; injection H as _ <-. exact (sockaddr_raise E source e0 Hs).
  - destruct (prints E (snd source)); intros H; [discriminate H|].
    injection H as _ <-. left; reflexivity.
Qed.

Lemma pull_buffer_size :
  Z.of_nat (length (repeat 0 (Z.to_nat Client.buffer_size))) = Client.buffer_size.
Proof. rewrite repeat_length, Z2Nat.id; [reflexivity | unfold Client.buffer_size; lia]. Qed.

(** A successful pull into a buffer of exactly [size] bytes leaves a buffer
    of the same length and a non-negative count. *)
Lemma pull_data_ok_shape (E : env) (sockfd : Z) (source : string * Z)
  (buffer : list Z) (size : Z) (buffer' : list Z) (n : Z) :
  Z.of_nat (length buffer) = size ->
  pull_data E sockfd source buffer size = (buffer', Ok n) ->
  length buffer' = length buffer /\ 0 <= n.
Proof.
  intros Hsize. unfold pull_data. destruct (lib_loaded E); cbn [negb].
  - destruct (sockaddr E source) as [addr|e]; [|discriminate].
    rewrite Hsize, Z.ltb_irrefl, (proj2 (Z.ltb_ge size 0)) by lia.
    destruct (rgtp_pull_data E sockfd addr size) as [[status written] n0].
    destruct (status <? 0); intros H; [discriminate H | injection H as <- <-].
    split.
    + rewrite length_app, length_skipn, length_firstn. lia.
    + apply Z.mod_pos_bound. lia.
  - destruct (prints E (snd source)); intros H; [|discriminate H].
    injection H as <- <-. rewrite ?mock_data_length.
    assert (Hc : 0 <= Z.min 49 size) by lia.
    rewrite py_prefix_assign_nonneg, py_prefix_nonneg by exact Hc.
    split; [|exact Hc].
    rewrite length_app, length_skipn, length_firstn, mock_data_length. lia.
Qed.

(** Claim C8: [Client.pull_to_file] performs a single pull into a fresh
    65536-byte buffer and writes [buffer[:bytes_received]] to the file, so
    the file holds [min(bytes_received, 65536)] bytes — exactly the count
    received whenever it fits the buffer — and never more than 65536 bytes,
    whatever the exposed payload. *)
Theorem pull_to_file_single_buffer (E : env) (c : Client.t) (source : string * Z)
  (filename : string) (f : list Z)
  (Hok : Client.pull_to_file E c source filename = Ok f) :
  exists buffer' bytes_received,
    Client.pull_data E c source (repeat 0 (Z.to_nat Client.buffer_size)) Client.buffer_size
      = (buffer', Ok bytes_received) /\
    0 <= bytes_received /\
    f = firstn (Z.to_nat bytes_received) buffer' /\
    Z.of_nat (length f) = Z.min bytes_received 65536 /\
    Z.of_nat (length f) <= 65536 /\
    (bytes_received <= 65536 -> Z.of_nat (length f) = bytes_received).
Proof.
  unfold Client.pull_to_file in Hok. rewrite pull_buffer_size in Hok.
  destruct (Client.pull_data E c source (repeat 0 (Z.to_nat Client.buffer_size))
              Client.buffer_size) as [buffer' r] eqn:Hpull.
  destruct r as [n|e]; [|discriminate]. cbn [bind_result] in Hok.
  destruct (can_open E filename); [|discriminate].
  injection Hok as <-.
  destruct (pull_data_ok_shape E (Client.sockfd c) source _ _ buffer' n pull_buffer_size Hpull)
    as [Hlen Hn].
  rewrite repeat_length in Hlen.
  exists buffer', n. rewrite py_prefix_nonneg by exact Hn.
  assert (Hf : Z.of_nat (length (firstn (Z.to_nat n) buffer')) = Z.min n 65536).
  { rewrite length_firstn, Hlen, Nat2Z.inj_min, !Z2Nat.id;
      [reflexivity | unfold Client.buffer_size; lia | exact Hn]. }
  repeat split; try assumption; rewrite Hf; lia.
Qed.

Lemma pull_to_file_single_buffer_witness :
  Client.pull_to_file mock_env (Client.mk 1 0) ("127.0.0.1"%string, 9999) "out.html"
    = Ok mock_data /\
  exists buffer' bytes_received,
    Client.pull_data mock_env (Client.mk 1 0) ("127.0.0.1"%string, 9999)
      (repeat 0 (Z.to_nat Client.buffer_size)) Client.buffer_size
      = (buffer', Ok bytes_received) /\
    Z.of_nat (length mock_data) = Z.min bytes_received 65536.
Proof.
  assert (Hok : Client.pull_to_file mock_env (Client.mk 1 0) ("127.0.0.1"%string, 9999)
                  "out.html" = Ok mock_data) by (vm_compute; reflexivity).
  split; [exact Hok|].
  destruct (pull_to_file_single_buffer mock_env (Client.mk 1 0) ("127.0.0.1"%string, 9999)
              "out.html" mock_data Hok) as (buffer' & n & Hp & _ & _ & Hl & _).
  exists buffer', n. split; assumption.
Defined.

(** Claim C3 (counterexample): without the native library a pull into a
    10-byte buffer returns the first 10 bytes of the 49-byte mock payload
    and reports them as a successful pull of 10 bytes; with [size = -3] it
    reports [-3] as success after writing 46 bytes. *)
Lemma mock_pull_partial_counterexample :
  pull_data mock_env 1 ("127.0.0.1"%string, 9999) (repeat 0 10) 10
    = (firstn 10 mock_data, Ok 10) /\
  firstn 10 mock_data <> mock_data /\
  pull_data mock_env 1 ("127.0.0.1"%string, 9999) [] (-3) = (firstn 46 mock_data, Ok (-3)).
Proof.
  split; [vm_compute; reflexivity|].
  split; [|vm_compute; reflexivity].
  intros H. apply (f_equal (@length Z)) in H. discriminate H.
Qed.

(** Claim C3 (amended): every primitive returns a value or raises exactly
    one exception: [socket] RGTPError only; [bind] ValueError (its message
    or warning formats the port) or RGTPError; [expose_data] ValueError,
    struct.error or RGTPError; [pull_data] also OverflowError (a [size]
    outside the C [ssize_t] range); [pull_to_file] ValueError, struct.error,
    OSError or RGTPError.  A pull whose native call reports failure raises
    RGTPError("Failed to pull data"), keeping in the caller's buffer what
    the native call wrote, and [pull_to_file] then writes no file.  Without
    the native library, however, [pull_data] reports a truncated payload as
    success: it copies the first [min(49, size)] bytes of the mock payload
    and returns that count. *)
Theorem primitive_outcomes :
  (forall (E : env) (e : exc), socket E = Raise e -> e = RGTPError "Failed to create RGTP socket") /\
  (forall (E : env) (sockfd port : Z) (e : exc),
     bind E sockfd port = Raise e -> e = ValueError \/ class_of e = C_RGTPError) /\
  (forall (E : env) (sockfd : Z) (data : list Z) (dest : string * Z) (e : exc),
     expose_data E sockfd data dest = Raise e ->
     e = ValueError \/ e = StructError \/ class_of e = C_RGTPError) /\
  (forall (E : env) (sockfd : Z) (source : string * Z) (buffer : list Z) (size : Z) (e : exc),
     snd (pull_data E sockfd source buffer size) = Raise e ->
     e = ValueError \/ e = StructError \/ e = OverflowError \/ class_of e = C_RGTPError) /\
  (forall (E : env) (c : Client.t) (source : string * Z) (filename : string) (e : exc),
     Client.pull_to_file E c source filename = Raise e ->
     e = ValueError \/ e = StructError \/ e = OSError \/ class_of e = C_RGTPError) /\
  (forall (E : env) (sockfd : Z) (source : string * Z) (buffer : list Z) (size : Z)
          (addr written : list Z) (status n : Z),
     lib_loaded E = true -> sockaddr E source = Ok addr ->
     0 <= size <= Z.of_nat (length buffer) ->
     rgtp_pull_data E sockfd addr size = (status, written, n) -> status < 0 ->
     pull_data E sockfd source buffer size =
     (firstn (Z.to_nat size) written
        ++ skipn (length (firstn (Z.to_nat size) written)) buffer,
      Raise (RGTPError "Failed to pull data"))) /\
  (forall (E : env) (c : Client.t) (source : string * Z) (filename : string) (addr : list Z),
     lib_loaded E = true -> sockaddr E source = Ok addr ->
     fst (fst (rgtp_pull_data E (Client.sockfd c) addr Client.buffer_size)) < 0 ->
     Client.pull_to_file E c source filename = Raise (RGTPError "Failed to pull data")) /\
  (forall (E : env) (sockfd : Z) (ip : string) (port : Z) (buffer : list Z) (size : Z),
     lib_loaded E = false -> prints E port = true -> 0 <= size ->
     pull_data E sockfd (ip, port) buffer size =
     (firstn (Z.to_nat (Z.min 49 size)) mock_data ++ skipn (Z.to_nat (Z.min 49 size)) buffer,
      Ok (Z.min 49 size))).
Proof.
  split; [|split; [|split; [|split; [|split; [|split; [|split]]]]]].
  - intros E e. unfold socket. destruct (lib_loaded E); cbn [negb]; [|discriminate].
    destruct (rgtp_socket E <? 0); intros H; [injection H as H; rewrite <- H; reflexivity | discriminate H].
  - intros E sockfd port e. unfold bind. destruct (lib_loaded E); cbn [negb].
    + destruct (rgtp_bind E sockfd (port mod 65536) <? 0); [|discriminate].
      destruct (py_str_int (max_str_digits E) port) as [p|e0] eqn:Hp; cbn [bind_result];
        intros H; injection H as H; rewrite <- H; [right; reflexivity|].
      left. exact (py_str_int_raise _ _ e0 Hp).
    + destruct (py_str_int (max_str_digits E) port) as [p|e0] eqn:Hp; cbn [bind_result];
        [discriminate|].
      intros H; injection H as H; rewrite <- H. left. exact (py_str_int_raise _ _ e0 Hp).
  - intros E sockfd data dest e. unfold expose_data. destruct (lib_loaded E); cbn [negb].
    + destruct (sockaddr E dest) as [addr|e0] eqn:Hs; cbn [bind_result].
      * destruct (rgtp_expose_data E sockfd data addr) as [status ptr].
        destruct (status <? 0); intros H; [injection H as H; rewrite <- H; right; right; reflexivity|].
        discriminate H.
      * intros H; injection H as H; rewrite <- H. exact (sockaddr_raise E dest e0 Hs).
    + destruct (py_str_int (max_str_digits E) (snd dest)) as [p|e0] eqn:Hp;
        cbn [bind_result]; [discriminate|].
      intros H; injection H as H; rewrite <- H. left. exact (py_str_int_raise _ _ e0 Hp).
  - intros E sockfd source buffer size e. unfold pull_data.
    destruct (lib_loaded E); cbn [negb].
    + destruct (sockaddr E source) as [addr|e0] eqn:Hs.
      * destruct (size <? 0);
          [cbn [snd]; intros H; injection H as H; rewrite <- H;
           match goal with |- context [if ?b then _ else _] => destruct b end;
           [right; right; left | left]; reflexivity|].
        destruct (Z.of_nat (length buffer) <? size);
          [cbn [snd]; intros H; injection H as H; rewrite <- H;
           match goal with |- context [if ?b then _ else _] => destruct b end;
           [right; right; left | left]; reflexivity|].
        destruct (rgtp_pull_data E sockfd addr size) as [[status written] n0].
        destruct (status <? 0); cbn [snd]; intros H;
          [injection H as H; rewrite <- H; right; right; right; reflexivity | discriminate H].
      * cbn [snd]. intros H; injection H as H; rewrite <- H.
        destruct (sockaddr_raise E source e0 Hs) as [H1|[H1|H1]]; tauto.
    + destruct (prints E (snd source)); cbn [snd]; intros H; [discriminate H|].
      injection H as H; rewrite <- H. left; reflexivity.
  - intros E c source filename e. unfold Client.pull_to_file, Client.pull_data.
    rewrite pull_buffer_size.
    destruct (pull_data E (Client.sockfd c) source (repeat 0 (Z.to_nat Client.buffer_size))
                Client.buffer_size) as [buffer' r] eqn:Hp.
    destruct r as [n|e0]; cbn [bind_result].
    + destruct (can_open E filename); intros H; [discriminate H|].
      injection H as H; rewrite <- H. right; right; left; reflexivity.
    + intros H; injection H as H; rewrite <- H.
      destruct (pull_data_raise_fitting E _ source _ _ buffer' e0 pull_buffer_size Hp)
        as [H1|[H1|H1]]; tauto.
  - exact pull_data_native_failure.
  - intros E c source filename addr Hloaded Haddr Hfail.
    unfold Client.pull_to_file, Client.pull_data. rewrite pull_buffer_size.
    destruct (rgtp_pull_data E (Client.sockfd c) addr Client.buffer_size)
      as [[status written] n] eqn:Hn.
    cbn [fst] in Hfail.
    rewrite (pull_data_native_failure E (Client.sockfd c) source _ Client.buffer_size addr
               written status n Hloaded Haddr) by (rewrite ?pull_buffer_size; try exact Hn;
                                                   try exact Hfail; unfold Client.buffer_size;
                                                   lia).
    reflexivity.
  - exact mock_pull_data_nonneg.
Qed.

Lemma primitive_outcomes_witness :
  pull_data mock_env 1 ("127.0.0.1"%string, 9999) (repeat 0 10) 10
    = (firstn 10 mock_data ++ skipn 10 (repeat 0 10), Ok 10) /\
  Client.pull_to_file failing_env (Client.mk 3 0) ("127.0.0.1"%string, 9999) "out.bin"%string
    = Raise (RGTPError "Failed to pull data").
Proof.
  destruct primitive_outcomes as (_ & _ & _ & _ & _ & _ & Hfail & Hmock). split.
  - exact (Hmock mock_env 1 "127.0.0.1"%string 9999 (repeat 0 10) 10
             eq_refl eq_refl ltac:(lia)).
  - exact (Hfail failing_env (Client.mk 3 0) ("127.0.0.1"%string, 9999) "out.bin"%string
             [2; 0; 39; 15; 127; 0; 0; 1; 0; 0; 0; 0; 0; 0; 0; 0]
             eq_refl eq_refl ltac:(cbn; lia)).
Defined.
(* ------------------------------------------------------------------------- *)
(** ** Host resolution failures *)

(** The [sin_addr] block of a host without NUL that neither [inet_aton]
    nor [gethostbyname] followed by [inet_aton] resolves raises RGTPError. *)
Lemma resolve_unresolvable (E : env) (ip : string) :
  has_nul ip = false -> inet_aton E ip = None ->
  (forall ip_addr, gethostbyname E ip = Some ip_addr -> has_nul ip_addr = false ->
                   inet_aton E ip_addr = None) ->
  resolve E ip = Raise (RGTPError ("Failed to resolve hostname: " ++ ip)).
Proof.
  intros Hnul Haton Hhost. unfold resolve. rewrite Hnul, Haton.
  destruct (gethostbyname E ip) as [ip_addr|] eqn:Hg; [|reflexivity].
  destruct (has_nul ip_addr) eqn:Hn; [reflexivity|].
  rewrite (Hhost ip_addr eq_refl Hn). reflexivity.
Qed.

Lemma sockaddr_resolve_raise (E : env) (ip : string) (port : Z) (e : exc) :
  0 <= port <= 65535 -> resolve E ip = Raise e -> sockaddr E (ip, port) = Raise e.
Proof.
  intros Hport Hres. unfold sockaddr. rewrite pack_port_in_range by exact Hport.
  cbn [bind_result]. rewrite Hres. reflexivity.
Qed.

(** With the library loaded, a failing address block raises before any
    native call, the buffer untouched. *)
Lemma loaded_sockaddr_raise (E : env) (sockfd : Z) (data : list Z) (dest : string * Z)
  (buffer : list Z) (size : Z) (e : exc) :
  lib_loaded E = true -> sockaddr E dest = Raise e ->
  expose_data E sockfd data dest = Raise e /\
  pull_data E sockfd dest buffer size = (buffer, Raise e).
Proof.
  intros Hloaded Hsa. unfold expose_data, pull_data. rewrite Hloaded, Hsa.
  split; reflexivity.
Qed.

Lemma expose_data_native_failure (E : env) (sockfd : Z) (data : list Z) (dest : string * Z)
  (addr : list Z) :
  lib_loaded E = true -> sockaddr E dest = Ok addr ->
  fst (rgtp_expose_data E sockfd data addr) < 0 ->
  expose_data E sockfd data dest = Raise (RGTPError "Failed to expose data").
Proof.
  intros Hloaded Haddr Hfail. unfold expose_data. rewrite Hloaded, Haddr.
  cbn [negb bind_result].
  destruct (rgtp_expose_data E sockfd data addr) as [status ptr]. cbn [fst] in Hfail.
  apply Z.ltb_lt in Hfail. rewrite Hfail. reflexivity.
Qed.

Lemma pull_data_native_failure_snd (E : env) (sockfd : Z) (source : string * Z)
  (buffer : list Z) (size : Z) (addr : list Z) :
  lib_loaded E = true -> sockaddr E source = Ok addr ->
  0 <= size <= Z.of_nat (length buffer) ->
  fst (fst (rgtp_pull_data E sockfd addr size)) < 0 ->
  snd (pull_data E sockfd source buffer size) = Raise (RGTPError "Failed to pull data").
Proof.
  intros Hloaded Haddr Hsize Hfail.
  destruct (rgtp_pull_data E sockfd addr size) as [[status written] n] eqn:Hn.
  cbn [fst] in Hfail.
  rewrite (pull_data_native_failure E sockfd source buffer size addr written status n
             Hloaded Haddr Hsize Hn Hfail).
  reflexivity.
Qed.

Lemma resolve_message_differs (ip msg : string) :
  msg = "Failed to expose data"%string \/ msg = "Failed to pull data"%string ->
  RGTPError ("Failed to resolve hostname: " ++ ip) <> RGTPError msg.
Proof. intros [-> | ->]; discriminate. Qed.



(* ========================================================================= *)
(** * Further properties of the binding *)

(** A quotient of two equal positive integers rounds to exactly 1.0. *)
Lemma round_to_float_self (n : Z) :
  0 < n -> round_to_float false n n = Finite false (2 ^ 52) (-52).
Proof.
  intros Hn. unfold round_to_float.
  rewrite (proj2 (Z.eqb_neq n 0)) by lia.
  pose proof overflow_threshold_gt_1 as T.
  rewrite (proj2 (Z.leb_gt (overflow_threshold * n) n)) by nia.
  unfold round_mag, flog2, ratio_ge_pow2. rewrite Z.sub_diag.
  change (Z.max 0 0) with 0. change (Z.max 0 (- 0)) with 0. change (2 ^ 0) with 1.
  rewrite Z.leb_refl. change (Z.max (0 - 52) (-1074)) with (-52).
  change (Z.max 0 (- -52)) with 52. change (Z.max 0 (-52)) with 0. rewrite Z.mul_1_r.
  rewrite (Z.mul_comm n (2 ^ 52)), Z.div_mul, Z.mod_mul by lia.
  replace (n <? 2 * 0) with false by (symmetry; apply Z.ltb_ge; lia).
  replace (2 * 0 =? n) with false by (symmetry; apply Z.eqb_neq; lia).
  cbn [orb andb]. change (2 ^ 52 =? 2 ^ 53) with false. reflexivity.
Qed.

Lemma float_mul_one_100 : float_mul (Finite false (2 ^ 52) (-52)) float_100 = float_100.
Proof. vm_compute. reflexivity. Qed.

(** [efficiency_percent] of a transfer with chunks and no retransmission is
    exactly 100.0, in floating point too. *)
Theorem efficiency_percent_lossless (s : Stats.t)
  (Hc : 0 < Stats.chunks_transferred s) (Hr : Stats.retransmissions s = 0) :
  Stats.efficiency_percent s = Ok float_100.
Proof.
  unfold Stats.efficiency_percent, int_true_div. cbv zeta.
  rewrite Hr, Z.add_0_r.
  rewrite (proj2 (Z.eqb_neq (Stats.chunks_transferred s) 0)) by lia.
  rewrite Z.abs_eq by lia.
  pose proof overflow_threshold_gt_1 as T.
  rewrite (proj2 (Z.leb_gt _ _)) by nia. cbn [bind_result].
  rewrite xorb_nilpotent, round_to_float_self by exact Hc.
  rewrite float_mul_one_100. reflexivity.
Qed.

Lemma efficiency_percent_lossless_witness :
  Stats.efficiency_percent (Stats.mk 0 0 0 0 16 0 0 0 0 0) = Ok float_100.
Proof.
  exact (efficiency_percent_lossless (Stats.mk 0 0 0 0 16 0 0 0 0 0) eq_refl eq_refl).
Defined.

(** The [sockaddr_in] handed to the native library is 16 bytes: family
    AF_INET (2, 0), the port in network byte order (which reads back as the
    port, itself in 0..65535), the four address bytes the resolver gave, and
    eight zero bytes. *)
Theorem sockaddr_layout (E : env) (ip : string) (port : Z) (addr : list Z)
  (H : sockaddr E (ip, port) = Ok addr) :
  length addr = 16%nat /\ firstn 2 addr = [2; 0] /\
  0 <= port <= 65535 /\ nth 2 addr 0 * 256 + nth 3 addr 0 = port /\
  (exists b0 b1 b2 b3, resolve E ip = Ok (b0, b1, b2, b3) /\
                       firstn 4 (skipn 4 addr) = [b0; b1; b2; b3]) /\
  skipn 8 addr = repeat 0 8.
Proof.
  unfold sockaddr in H.
  destruct (Z.le_decidable 0 port) as [H1|H1];
    [destruct (Z.le_decidable port 65535) as [H2|H2]|].
  - rewrite pack_port_in_range in H by lia. cbn [bind_result] in H.
    destruct (resolve E ip) as [[[[b0 b1] b2] b3]|e] eqn:Hres; [|discriminate].
    injection H as <-. cbn.
    repeat split; try lia.
    + pose proof (Z.div_mod port 256 ltac:(lia)). lia.
    + exists b0, b1, b2, b3. split; reflexivity.
  - rewrite pack_port_out_of_range in H by lia. discriminate.
  - rewrite pack_port_out_of_range in H by lia. discriminate.
Qed.

Lemma sockaddr_layout_witness : exists addr,
  sockaddr loaded_env ("127.0.0.1"%string, 9999) = Ok addr /\ length addr = 16%nat.
Proof.
  exists [2; 0; 39; 15; 127; 0; 0; 1; 0; 0; 0; 0; 0; 0; 0; 0].
  split; [reflexivity|].
  exact (proj1 (sockaddr_layout loaded_env "127.0.0.1" 9999 _ eq_refl)).
Defined.

(** With the library loaded, a port outside 0..65535 makes [expose_data] and
    [pull_data] raise struct.error from [struct.pack], before the host is
    resolved and without touching the buffer: an unresolvable host is then
    not reported. *)
Theorem bad_port_struct_error (E : env) (sockfd : Z) (data : list Z) (ip : string)
  (port : Z) (buffer : list Z) (size : Z)
  (Hloaded : lib_loaded E = true) (Hport : ~ (0 <= port <= 65535)) :
  expose_data E sockfd data (ip, port) = Raise StructError /\
  pull_data E sockfd (ip, port) buffer size = (buffer, Raise StructError).
Proof.
  assert (Hsa : sockaddr E (ip, port) = Raise StructError).
  { unfold sockaddr. rewrite pack_port_out_of_range by exact Hport. reflexivity. }
  unfold expose_data, pull_data. rewrite Hloaded, Hsa. split; reflexivity.
Qed.

Lemma bad_port_struct_error_witness :
  expose_data loaded_env 3 [1] ("no.such.host"%string, 70000) = Raise StructError.
Proof.
  exact (proj1 (bad_port_struct_error loaded_env 3 [1] "no.such.host" 70000 [] 0
                  eq_refl ltac:(lia))).
Defined.

(** With the library loaded and the source address built, a negative [size]
    or one larger than the buffer makes ctypes raise before the native call,
    the buffer untouched: OverflowError for a [size] outside the C
    [ssize_t] range [[-2^63, 2^63)], ValueError otherwise. *)
Theorem pull_data_bad_size (E : env) (sockfd : Z) (source : string * Z)
  (buffer : list Z) (size : Z) (addr : list Z)
  (Hloaded : lib_loaded E = true) (Haddr : sockaddr E source = Ok addr)
  (Hsize : size < 0 \/ Z.of_nat (length buffer) < size) :
  pull_data E sockfd source buffer size =
  (buffer, Raise (if (size <? - 2 ^ 63) || (2 ^ 63 <=? size) then OverflowError else ValueError)).
Proof.
  unfold pull_data. rewrite Hloaded, Haddr. cbn [negb].
  assert (Hp : 0 < 2 ^ 63) by (apply Z.pow_pos_nonneg; lia).
  destruct (Z.ltb_spec size 0).
  - rewrite (proj2 (Z.leb_gt (2 ^ 63) size)) by lia. rewrite orb_false_r. reflexivity.
  - rewrite (proj2 (Z.ltb_ge size (- 2 ^ 63))) by lia. cbn [orb].
    destruct (Z.ltb_spec (Z.of_nat (length buffer)) size); [reflexivity | lia].
Qed.

Lemma pull_data_bad_size_witness :
  pull_data loaded_env 3 ("127.0.0.1"%string, 9999) [0; 0] 5 = ([0; 0], Raise ValueError) /\
  pull_data loaded_env 3 ("127.0.0.1"%string, 9999) [0; 0] (2 ^ 64)
    = ([0; 0], Raise OverflowError).
Proof.
  split.
  - rewrite (pull_data_bad_size loaded_env 3 ("127.0.0.1"%string, 9999) [0; 0] 5
               [2; 0; 39; 15; 127; 0; 0; 1; 0; 0; 0; 0; 0; 0; 0; 0]
               eq_refl eq_refl ltac:(right; simpl; lia)).
    reflexivity.
  - rewrite (pull_data_bad_size loaded_env 3 ("127.0.0.1"%string, 9999) [0; 0] (2 ^ 64)
               [2; 0; 39; 15; 127; 0; 0; 1; 0; 0; 0; 0; 0; 0; 0; 0]
               eq_refl eq_refl ltac:(right; simpl; lia)).
    reflexivity.
Defined.

(** The buffer is shared with the native call: when the native pull writes
    bytes and then reports failure, [pull_data] raises RGTPError and the
    caller's buffer keeps the bytes written. *)
Theorem pull_data_failure_keeps_writes (E : env) (sockfd : Z) (source : string * Z)
  (buffer : list Z) (size : Z) (addr written : list Z) (status n : Z)
  (Hloaded : lib_loaded E = true) (Haddr : sockaddr E source = Ok addr)
  (Hsize : 0 <= size <= Z.of_nat (length buffer))
  (Hnative : rgtp_pull_data E sockfd addr size = (status, written, n))
  (Hstatus : status < 0) :
  pull_data E sockfd source buffer size =
  (firstn (Z.to_nat size) written
     ++ skipn (length (firstn (Z.to_nat size) written)) buffer,
   Raise (RGTPError "Failed to pull data")).
Proof.
  exact (pull_data_native_failure E sockfd source buffer size addr written status n
           Hloaded Haddr Hsize Hnative Hstatus).
Qed.

Lemma pull_data_failure_keeps_writes_witness :
  pull_data partial_failure_env 3 ("127.0.0.1"%string, 9999) [0; 0; 0] 3
  = ([9; 9; 0], Raise (RGTPError "Failed to pull data")).
Proof.
  exact (pull_data_failure_keeps_writes partial_failure_env 3 ("127.0.0.1"%string, 9999)
           [0; 0; 0] 3 [2; 0; 39; 15; 127; 0; 0; 1; 0; 0; 0; 0; 0; 0; 0; 0] [9; 9] (-1) 2
           eq_refl eq_refl ltac:(simpl; lia) eq_refl ltac:(lia)).
Defined.

(** Without the library, [pull_data] with a [size] larger than the buffer
    (up to the 49 mock bytes) grows the caller's bytearray: for [size >= 0]
    the buffer ends with [max(len(buffer), min(49, size))] bytes, unless the
    warning cannot print the port, which leaves it as it was. *)
Theorem mock_pull_resizes_buffer (E : env) (sockfd : Z) (source : string * Z)
  (buffer : list Z) (size : Z)
  (Hmock : lib_loaded E = false) (Hsize : 0 <= size) :
  length (fst (pull_data E sockfd source buffer size))
  = if prints E (snd source) then Nat.max (length buffer) (Z.to_nat (Z.min 49 size))
    else length buffer.
Proof.
  destruct source as [ip port]. cbn [snd].
  destruct (prints E port) eqn:Hp.
  - rewrite (mock_pull_data_nonneg E sockfd ip port buffer size Hmock Hp Hsize). cbn [fst].
    rewrite length_app, length_skipn, length_firstn, mock_data_length. lia.
  - rewrite mock_pull_data, Hp by exact Hmock. reflexivity.
Qed.

Lemma mock_pull_resizes_buffer_witness :
  length (fst (pull_data mock_env 1 ("h"%string, 1) [0; 0] 10)) = 10%nat.
Proof.
  rewrite (mock_pull_resizes_buffer mock_env 1 ("h"%string, 1) [0; 0] 10 eq_refl
             ltac:(lia)).
  reflexivity.
Defined.

(** [bind] does not range-check the port: ctypes truncates it to 16 bits,
    so with the library loaded binding to [port] succeeds exactly when the
    native bind of [port mod 65536] does, and [port] and [port + 65536]
    succeed or fail together. *)
Theorem bind_port_truncated (E : env) (sockfd port : Z)
  (Hloaded : lib_loaded E = true) :
  (bind E sockfd port = Ok tt <-> 0 <= rgtp_bind E sockfd (port mod 65536)) /\
  (bind E sockfd (port + 65536) = Ok tt <-> bind E sockfd port = Ok tt).
Proof.
  assert (Hb : forall p, bind E sockfd p = Ok tt <-> 0 <= rgtp_bind E sockfd (p mod 65536)).
  { intros p. unfold bind. rewrite Hloaded. cbn [negb].
    destruct (Z.ltb_spec (rgtp_bind E sockfd (p mod 65536)) 0).
    - destruct (py_str_int (max_str_digits E) p); cbn [bind_result];
        split; [discriminate | lia | discriminate | lia].
    - split; [lia | reflexivity]. }
  split; [apply Hb|].
  rewrite !Hb. replace ((port + 65536) mod 65536) with (port mod 65536); [reflexivity|].
  replace (port + 65536) with (port + 1 * 65536) by lia. rewrite Z.mod_add by lia.
  reflexivity.
Qed.

Lemma bind_port_truncated_witness :
  bind loaded_env 3 70000 = Ok tt.
Proof.
  apply (proj2 (proj1 (bind_port_truncated loaded_env 3 70000 eq_refl))).
  simpl. lia.
Defined.

(** Without the library, [Client(port)] never fails and [Session(port)]
    fails only with the ValueError of its bind warning, for a port with more
    digits than the int-to-str limit; both use the mock handle 1 and the
    session starts with no surface. *)
Theorem mock_session_client_init (E : env) (port : Z) (Hmock : lib_loaded E = false) :
  Session.init E port
    = (if prints E port then Ok (Session.mk 1 None port) else Raise ValueError) /\
  Client.init E port = Ok (Client.mk 1 port).
Proof.
  split; [exact (mock_session_init E port Hmock)|].
  unfold Client.init, socket. rewrite Hmock. reflexivity.
Qed.

Lemma mock_session_client_init_witness :
  Session.init mock_env (-5) = Ok (Session.mk 1 None (-5)) /\
  Session.init mock_env_311 (10 ^ 4300) = Raise ValueError.
Proof.
  split.
  - rewrite (proj1 (mock_session_client_init mock_env (-5) eq_refl)). reflexivity.
  - rewrite (proj1 (mock_session_client_init mock_env_311 (10 ^ 4300) eq_refl)).
    rewrite prints_large; [reflexivity | reflexivity |].
    rewrite Z.abs_eq by (apply Z.pow_nonneg; lia). apply Z.le_refl.
Defined.

(** The [_RGTPHeader] structure occupies 20 bytes, the checksum included:
    version at offset 0, type at 1, flags at 2, session_id at 4, sequence at
    8, chunk_size at 12 and checksum at 16. *)
Theorem header_layout_20 :
  offsets header_pack 0 header_fields = [0; 1; 2; 4; 8; 12; 16]%nat /\
  sizeof_struct header_pack header_fields = 20%nat /\
  forall (host : endianness) (h : header), length (encode_header host h) = 20%nat.
Proof.
  split; [reflexivity|]. split; [reflexivity|].
  intros host h. rewrite encode_header_packed. unfold packed_header.
  rewrite !length_app, !int_bytes_length. reflexivity.
Qed.

Lemma le_value_bytes_from (v : Z) (w k : nat) :
  le_value (map (fun i => Z.land (Z.shiftr v (8 * Z.of_nat i)) 255) (seq k w))
  = Z.shiftr v (8 * Z.of_nat k) mod 2 ^ (8 * Z.of_nat w).
Proof.
  revert k. induction w as [|w IH]; intros k.
  - simpl. rewrite Z.mod_1_r. reflexivity.
  - cbn [seq map le_value]. rewrite IH.
    set (x := Z.shiftr v (8 * Z.of_nat k)).
    replace (Z.shiftr v (8 * Z.of_nat (S k))) with (x / 256).
    2:{ unfold x. rewrite !Z.shiftr_div_pow2 by lia.
        rewrite Z.div_div by (try apply Z.pow_nonzero; lia).
        f_equal. change 256 with (2 ^ 8). rewrite <- Z.pow_add_r by lia. f_equal. lia. }
    replace 255 with (Z.ones 8) by reflexivity.
    rewrite Z.land_ones by lia.
    replace (8 * Z.of_nat (S w)) with (8 + 8 * Z.of_nat w) by lia.
    rewrite Z.pow_add_r by lia. rewrite Z.rem_mul_r by (try apply Z.pow_pos_nonneg; lia).
    reflexivity.
Qed.

(** Reading an integer field back from its bytes gives the value stored
    modulo [2^(8w)], on either host: ctypes wraps an out-of-range value
    silently instead of rejecting it. *)
Theorem int_field_roundtrip (e : endianness) (w : nat) (v : Z) :
  decode_int e (int_bytes e w v) = v mod 2 ^ (8 * Z.of_nat w).
Proof.
  unfold decode_int, int_bytes.
  destruct e; [|rewrite rev_involutive];
    rewrite le_value_bytes_from; simpl (8 * Z.of_nat 0); rewrite Z.shiftr_0_r; reflexivity.
Qed.
(* ------------------------------------------------------------------------- *)
(** ** HTTPSClient.download, send_file and receive_file *)

(** What [pull_to_file] writes never exceeds its 65536-byte buffer. *)
Lemma pull_to_file_written_bound (E : env) (c : Client.t) (source : string * Z)
  (filename : string) (f : list Z) :
  Client.pull_to_file E c source filename = Ok f -> Z.of_nat (length f) <= 65536.
Proof.
  intros Hok. unfold Client.pull_to_file in Hok. rewrite pull_buffer_size in Hok.
  destruct (Client.pull_data E c source (repeat 0 (Z.to_nat Client.buffer_size))
              Client.buffer_size) as [buffer' r] eqn:Hpull.
  destruct r as [n|e]; [|discriminate]. cbn [bind_result] in Hok.
  destruct (can_open E filename); [|discriminate]. injection Hok as <-.
  destruct (pull_data_ok_shape E (Client.sockfd c) source _ _ buffer' n pull_buffer_size Hpull)
    as [Hlen _].
  rewrite repeat_length in Hlen. unfold py_prefix.
  rewrite length_firstn, Hlen. unfold Client.buffer_size. lia.
Qed.

Lemma transfer_stats_fields (k : Z) :
  Stats.bytes_transferred (Convenience.transfer_stats k) = k /\
  Stats.total_bytes (Convenience.transfer_stats k) = k /\
  Stats.completion_percent (Convenience.transfer_stats k) = 100%Q.
Proof. repeat split. Qed.

Lemma getsize_r_ok (E : env) (filename : string) (k : Z) :
  Convenience.getsize_r E filename = Ok k -> getsize E filename = Some k.
Proof.
  unfold Convenience.getsize_r. destruct (getsize E filename); intros H; [|discriminate H].
  injection H as ->. reflexivity.
Qed.




(** [receive_file] passes the errors of [Client()] and [pull_to_file]
    through unchanged, and on success reports [completion_percent] 100 for a
    file of at most 65536 bytes. *)
Theorem receive_file_outcomes (E : env) (host : string) (port : Z) (filename : string) :
  match Convenience.receive_file E host port filename with
  | Ok st =>
      Stats.completion_percent st = 100%Q /\
      Stats.bytes_transferred st = Stats.total_bytes st /\
      0 <= Stats.bytes_transferred st <= 65536
  | Raise e =>
      exists c, (Client.init E 0 = Raise e) \/
                (Client.init E 0 = Ok c /\
                 Client.pull_to_file E c (host, port) filename = Raise e)
  end.
Proof.
  unfold Convenience.receive_file.
  destruct (Client.init E 0) as [c|e] eqn:Hc; cbn [bind_result].
  - destruct (Client.pull_to_file E c (host, port) filename) as [f|e] eqn:Hf;
      cbn [bind_result].
    + pose proof (pull_to_file_written_bound _ _ _ _ _ Hf). repeat split; simpl; lia.
    + exists c. right. split; [reflexivity | exact Hf].
  - exists (Client.mk 0 0). left. reflexivity.
Qed.

Lemma prints_9999 (E : env) : prints E 9999 = true.
Proof. apply prints_small. cbn. lia. Qed.

(** [send_file] ignores its [host] and [port] arguments: with the library
    loaded the file's bytes are always exposed to the address of
    127.0.0.1:9999, and the size [os.path.getsize] gives is reported when
    the native expose succeeds.  Without the native library it reports a
    complete transfer of that size for every readable file although nothing
    is exposed. *)
Theorem send_file_ignores_destination (E : env) (read : string -> result (list Z))
  (filename : string) :
  (forall host1 host2 port1 port2,
     Convenience.send_file E read filename host1 port1
     = Convenience.send_file E read filename host2 port2) /\
  (forall host port s data b0 b1 b2 b3,
     lib_loaded E = true -> Session.init E 9999 = Ok s -> read filename = Ok data ->
     inet_aton E "127.0.0.1" = Some (b0, b1, b2, b3) ->
     Convenience.send_file E read filename host port =
     if fst (rgtp_expose_data E (Session.sockfd s) data
               [2; 0; 39; 15; b0; b1; b2; b3; 0; 0; 0; 0; 0; 0; 0; 0]) <? 0
     then Raise (RGTPError "Failed to expose data")
     else match getsize E filename with
          | Some k => Ok (Convenience.transfer_stats k)
          | None => Raise OSError
          end) /\
  (lib_loaded E = false ->
   forall host port,
     Convenience.send_file E read filename host port =
     match read filename with
     | Ok _ =>
         match getsize E filename with
         | Some k => Ok (Convenience.transfer_stats k)
         | None => Raise OSError
         end
     | Raise e => Raise e
     end).
Proof.
  split; [|split].
  - intros host1 host2 port1 port2. unfold Convenience.send_file. reflexivity.
  - intros host port s data b0 b1 b2 b3 Hloaded Hs Hread Haton.
    unfold Convenience.send_file, Convenience.expose_file, Session.expose_data.
    rewrite Hs. cbn [bind_result]. rewrite Hread. cbn [bind_result].
    unfold expose_data. rewrite Hloaded. cbn [negb].
    unfold sockaddr. rewrite pack_port_in_range by lia. cbn [bind_result].
    unfold resolve. change (has_nul "127.0.0.1"%string) with false. rewrite Haton.
    cbn [bind_result].
    change (9999 / 256) with 39. change (9999 mod 256) with 15.
    destruct (rgtp_expose_data E (Session.sockfd s) data
                [2; 0; 39; 15; b0; b1; b2; b3; 0; 0; 0; 0; 0; 0; 0; 0]) as [status ptr].
    cbn [fst]. destruct (status <? 0); [reflexivity|]. cbn [bind_result].
    unfold Convenience.getsize_r. destruct (getsize E filename); reflexivity.
  - intros Hmock host port.
    unfold Convenience.send_file, Convenience.expose_file, Session.expose_data.
    rewrite (mock_session_init E 9999 Hmock), prints_9999.
    cbn [bind_result]. destruct (read filename); [|reflexivity]. cbn [bind_result].
    rewrite (mock_expose_data E 1 _ "127.0.0.1" 9999 Hmock), prints_9999. cbn [bind_result].
    unfold Convenience.getsize_r. destruct (getsize E filename); reflexivity.
Qed.

Lemma send_file_ignores_destination_witness :
  Convenience.send_file loaded_env (fun _ => Ok [1; 2]) "data.bin"%string "example.org"%string 80
  = Ok (Convenience.transfer_stats 0).
Proof.
  rewrite (proj1 (proj2 (send_file_ignores_destination loaded_env (fun _ => Ok [1; 2])
                           "data.bin"%string))
             "example.org"%string 80 (Session.mk 3 None 9999) [1; 2] 127 0 0 1
             eq_refl eq_refl eq_refl eq_refl).
  reflexivity.
Defined.
